(** * Traffic Intelligence API: authentication layer and prediction endpoints

    A shallow embedding of [auth.py] and [main.py].  Python dictionaries are
    finite maps ([gmap]), the set of paths on disk is a [gset], exceptions
    and the mutable globals are threaded through a small state-and-exception
    monad, and the third-party collaborators (PyJWT, OpenCV, the YOLO model)
    appear only through the behaviour the two source files rely on. *)

From Stdlib Require Import ZArith QArith Ascii.
From stdpp Require Import gmap strings list fin_maps.

(** ** Python values, exceptions and effects *)

(** The exceptions the two files raise or catch.  [PyJWTError] stands for
    every subclass of [jwt.PyJWTError] other than [ExpiredSignatureError]
    (the argument names the subclass); [PyException] is any other Python
    exception, carrying [str(e)]. *)
Inductive exn : Type :=
| HTTPException (status_code : nat) (detail : string)
| ExpiredSignatureError
| PyJWTError (kind : string)
| PyException (msg : string).

Inductive result (A : Type) : Type :=
| Return (a : A)
| Raise (e : exn).
Arguments Return {A} a.
Arguments Raise {A} e.

(** A computation over a mutable store [S] that may raise.  The store that
    comes out is the one at the point of return or of the raise: writes
    made before an exception stay made. *)
Definition M (S A : Type) : Type := S → result A * S.

Global Instance M_ret {S} : MRet (M S) := λ A a s, (Return a, s).
Global Instance M_bind {S} : MBind (M S) := λ A B k m s,
  match m s with
  | (Return a, s') => k a s'
  | (Raise e, s') => (Raise e, s')
  end.

Global Instance result_ret : MRet result := λ A a, Return a.
Global Instance result_bind : MBind result := λ A B k r,
  match r with
  | Return a => k a
  | Raise e => Raise e
  end.

Definition raise {S A} (e : exn) : M S A := λ s, (Raise e, s).
Definition get {S} : M S S := λ s, (Return s, s).
Definition modify {S} (f : S → S) : M S unit := λ s, (Return tt, f s).
Definition lift {S A} (r : result A) : M S A := λ s, (r, s).

(** [try: body except Exception as e: handler(e)], for a handler that
    itself raises. *)
Definition try_except {S A} (body : M S A) (handler : exn → exn) : M S A :=
  λ s, match body s with
       | (Return a, s') => (Return a, s')
       | (Raise e, s') => (Raise (handler e), s')
       end.

(** [try: body finally: cleanup]: the cleanup runs on both exits and the
    outcome of the body is kept. *)
Definition try_finally {S A} (body : M S A) (cleanup : M S unit) : M S A :=
  λ s, match body s with
       | (r, s') => match cleanup s' with
                    | (Return _, s'') => (r, s'')
                    | (Raise e, s'') => (Raise e, s'')
                    end
       end.

(** [str(e)] as the handlers of [main.py] use it. *)
Definition str_exn (e : exn) : string :=
  match e with
  | HTTPException c d => d
  | ExpiredSignatureError => "Signature has expired"
  | PyJWTError k => k
  | PyException m => m
  end.

(** The values found in a token payload: strings, integers, [None] and
    [datetime] objects (microseconds since the epoch, UTC). *)
Inductive pyval : Type :=
| PStr (s : string)
| PInt (z : Z)
| PNone
| PDatetime (us : Z).

Global Instance pyval_eq_dec : EqDecision pyval.
Proof. solve_decision. Defined.

(** A Python [float]: a finite value or one of the three special ones.
    Only comparisons are made on them, so a finite float is its exact
    rational value. *)
Inductive pyfloat : Type :=
| Finite (q : Q)
| PosInf
| NegInf
| NaN.

(** [x >= bound] and [x <= bound] for a finite bound. *)
Definition float_ge (x : pyfloat) (bound : Q) : bool :=
  match x with
  | Finite q => Qle_bool bound q
  | PosInf => true
  | NegInf | NaN => false
  end.

Definition float_le (x : pyfloat) (bound : Q) : bool :=
  match x with
  | Finite q => Qle_bool q bound
  | NegInf => true
  | PosInf | NaN => false
  end.

(** [old in s] for strings. *)
Definition str_in (old s : string) : bool :=
  match String.index 0 old s with
  | Some _ => true
  | None => false
  end.

(** [s.replace(old, new)] for a non-empty [old]: the occurrences are found
    from the left and do not overlap.  [skip] counts the characters of an
    occurrence that has just been replaced and are still to be passed. *)
Fixpoint str_replace_from (old new : string) (skip : nat) (s : string) : string :=
  match s with
  | EmptyString => EmptyString
  | String c s' =>
      match skip with
      | S k => str_replace_from old new k s'
      | O =>
          if String.prefix old s
          then new +:+ str_replace_from old new (String.length old - 1) s'
          else String c (str_replace_from old new 0 s')
      end
  end.

Definition str_replace (old new s : string) : string :=
  str_replace_from old new 0 s.

(** ** auth.py *)

Module Auth.

(** *** 1. Configuration *)

Definition SECRET_KEY : string := "super_secret_diabolical_key".
Definition ALGORITHM : string := "HS256".
Definition ACCESS_TOKEN_EXPIRE_MINUTES : Z := 30.

(** [timedelta(minutes=m)], in microseconds. *)
Definition timedelta_minutes (m : Z) : Z := (m * 60 * 1000000)%Z.

(** *** 2. The in-memory user table *)

Record db_user : Type := mk_db_user {
  username : string;
  password : string;
  disabled : bool
}.

Global Instance db_user_eq_dec : EqDecision db_user.
Proof. solve_decision. Defined.

Definition fake_users_db : gmap string db_user :=
  {[ "admin" := mk_db_user "admin" "secretpassword" false ]}.

(** *** 3. Data models *)

Record UserAuth : Type := mk_UserAuth {
  ua_username : string;
  ua_password : string
}.

(** *** The PyJWT collaborator

    A compact token is either not a well-formed JWS, or carries a header
    algorithm, a payload and a signature.  The signature is an ideal MAC:
    it verifies under exactly the key it was made with, so a tampered or
    forged token is one whose [signed_with] is not the server's key. *)
Inductive token : Type :=
| NotAJws (raw : string)
| Jws (alg : string) (payload : gmap string pyval) (signed_with : string).

(** [jwt.encode]: the [datetime] values of the claims exp, iat and nbf
    become whole seconds ([timegm(d.utctimetuple())], which drops the
    microseconds); any other [datetime] is not JSON serialisable. *)
Definition to_int_date (v : pyval) : pyval :=
  match v with
  | PDatetime us => PInt (us `div` 1000000)
  | _ => v
  end.

Definition is_datetime (v : pyval) : bool :=
  match v with PDatetime _ => true | _ => false end.

Definition jwt_encode (payload : gmap string pyval) (key algorithm : string)
  : result token :=
  let payload :=
    alter to_int_date "nbf" (alter to_int_date "iat" (alter to_int_date "exp" payload)) in
  if bool_decide (map_Forall (λ _ v, is_datetime v = false) payload)
  then Return (Jws algorithm payload key)
  else Raise (PyException "Object of type datetime is not JSON serializable").

(** The checks [jwt.decode] makes on the registered claims with its default
    options and no audience or issuer given.  [now] is the clock in
    microseconds; the library's [exp <= now] on seconds is
    [exp * 10^6 <= now] here.  Each check gives the exception it raises.

    The library reads the three time claims with [int()] inside
    [try: ... except ValueError:].  For a value that is neither a number
    nor a string, [int()] raises a [TypeError], which that clause does not
    catch and which is not a [PyJWTError].  For a string the checks below
    answer the library's error for one that [int()] cannot read; the
    library accepts the others as numbers, so what is proved of every
    token is stated for integer time claims ([integer_time_claims]). *)
Definition int_TypeError : exn :=
  PyException "int() argument must be a string, a bytes-like object or a real number".

Definition validate_iat (payload : gmap string pyval) (now : Z) : option exn :=
  match payload !! "iat" with
  | None => None
  | Some (PInt iat) =>
      if (now <? iat * 1000000)%Z
      then Some (PyJWTError "ImmatureSignatureError") else None
  | Some (PStr _) => Some (PyJWTError "InvalidIssuedAtError")
  | Some _ => Some int_TypeError
  end.

Definition validate_nbf (payload : gmap string pyval) (now : Z) : option exn :=
  match payload !! "nbf" with
  | None => None
  | Some (PInt nbf) =>
      if (now <? nbf * 1000000)%Z
      then Some (PyJWTError "ImmatureSignatureError") else None
  | Some (PStr _) => Some (PyJWTError "DecodeError")
  | Some _ => Some int_TypeError
  end.

Definition validate_exp (payload : gmap string pyval) (now : Z) : option exn :=
  match payload !! "exp" with
  | None => None
  | Some (PInt exp) =>
      if (exp * 1000000 <=? now)%Z then Some ExpiredSignatureError else None
  | Some (PStr _) => Some (PyJWTError "DecodeError")
  | Some _ => Some int_TypeError
  end.

(** Truth value of a claim: the empty string, zero and [None] are false. *)
Definition truthy (v : pyval) : bool :=
  match v with
  | PStr s => negb (bool_decide (s = ""))
  | PInt z => negb (z =? 0)%Z
  | PNone => false
  | PDatetime _ => true
  end.

(** No audience is given to [jwt.decode]: an "aud" claim that is present
    and not false is refused. *)
Definition validate_aud (payload : gmap string pyval) : option exn :=
  match payload !! "aud" with
  | None => None
  | Some aud =>
      if truthy aud then Some (PyJWTError "InvalidAudienceError") else None
  end.

Definition validate_sub (payload : gmap string pyval) : option exn :=
  match payload !! "sub" with
  | None | Some (PStr _) => None
  | Some _ => Some (PyJWTError "InvalidSubjectError")
  end.

Definition validate_jti (payload : gmap string pyval) : option exn :=
  match payload !! "jti" with
  | None | Some (PStr _) => None
  | Some _ => Some (PyJWTError "InvalidJTIError")
  end.

(** The checks run in order and the first failure is the one raised. *)
Fixpoint first_failure (checks : list (option exn)) : result unit :=
  match checks with
  | [] => Return tt
  | Some e :: _ => Raise e
  | None :: rest => first_failure rest
  end.

Definition validate_claims (payload : gmap string pyval) (now : Z) : result unit :=
  first_failure
    [ validate_iat payload now; validate_nbf payload now;
      validate_exp payload now; validate_aud payload;
      validate_sub payload; validate_jti payload ].

(** The time claims of a payload are integers where they are present. *)
Definition integer_or_absent (payload : gmap string pyval) (claim : string) : Prop :=
  payload !! claim = None ∨ ∃ z, payload !! claim = Some (PInt z).

Definition integer_time_claims (t : token) : Prop :=
  match t with
  | NotAJws _ => True
  | Jws _ payload _ =>
      integer_or_absent payload "iat" ∧ integer_or_absent payload "nbf" ∧
      integer_or_absent payload "exp"
  end.

(** [jwt.decode(token, key, algorithms=...)] at clock [now]: structure,
    then algorithm, then signature, then the claims. *)
Definition jwt_decode (t : token) (key : string) (algorithms : list string)
    (now : Z) : result (gmap string pyval) :=
  match t with
  | NotAJws _ => Raise (PyJWTError "DecodeError")
  | Jws alg payload signed_with =>
      if negb (bool_decide (alg ∈ algorithms))
      then Raise (PyJWTError "InvalidAlgorithmError")
      else if negb (bool_decide (signed_with = key))
      then Raise (PyJWTError "InvalidSignatureError")
      else match validate_claims payload now with
           | Return _ => Return payload
           | Raise e => Raise e
           end
  end.

(** *** 4. Utility functions *)

(** Truth value of an [Optional[timedelta]]: [None] and [timedelta(0)]
    are both false. *)
Definition timedelta_truthy (expires_delta : option Z) : bool :=
  match expires_delta with
  | None => false
  | Some d => negb (d =? 0)%Z
  end.

(** The instants a [datetime] can hold, 0001-01-01 00:00:00 to
    9999-12-31 23:59:59.999999 UTC, in microseconds since the epoch.
    [datetime + timedelta] raises an [OverflowError] when the sum falls
    outside them. *)
Definition datetime_min : Z := (-62135596800000000)%Z.
Definition datetime_max : Z := 253402300799999999%Z.

Definition datetime_in_range (us : Z) : Prop :=
  (datetime_min ≤ us ≤ datetime_max)%Z.

(** [create_access_token(data, expires_delta)], called when the UTC clock
    reads [now].  The sum is taken in [Z]: the function is followed where
    the expiry is an instant a [datetime] can hold ([datetime_in_range]),
    which is so for every clock of our era with the deltas of the
    endpoints. *)
Definition create_access_token (data : gmap string pyval)
    (expires_delta : option Z) (now : Z) : result token :=
  let to_encode := data in
  let expire :=
    if timedelta_truthy expires_delta
    then (now + default 0 expires_delta)%Z
    else (now + timedelta_minutes 15)%Z in
  let to_encode := <["exp" := PDatetime expire]> to_encode in
  jwt_encode to_encode SECRET_KEY ALGORITHM.

(** [verify_token(credentials)] at clock [now].  The [HTTPException] for a
    missing subject is raised inside the [try], and neither [except]
    clause catches it. *)
Definition verify_token (credentials : token) (now : Z) : result pyval :=
  let token := credentials in
  match jwt_decode token SECRET_KEY [ALGORITHM] now with
  | Return payload =>
      let username := default PNone (payload !! "sub") in
      if bool_decide (username = PNone)
      then Raise (HTTPException 401 "Token is missing username")
      else Return username
  | Raise ExpiredSignatureError =>
      Raise (HTTPException 401 "Token has expired! Login again.")
  | Raise (PyJWTError _) =>
      Raise (HTTPException 401 "Invalid token")
  | Raise e => Raise e
  end.

(** *** 5. Auth functions, over the global [fake_users_db] *)

Definition register_new_user (user : UserAuth) : M (gmap string db_user) UserAuth :=
  db ← get;
  if bool_decide (ua_username user ∈ dom db)
  then raise (HTTPException 400 "Username already exists")
  else
    modify (λ db, <[ua_username user :=
                      mk_db_user (ua_username user) (ua_password user) false]> db);;
    mret user.

(** The record handed back is the one in the table; a stored record has
    three keys, so [not db_user] holds only for [None]. *)
Definition authenticate_user (user : UserAuth)
  : M (gmap string db_user) (option db_user) :=
  db ← get;
  match db !! ua_username user with
  | None => mret None
  | Some db_user =>
      if negb (bool_decide (password db_user = ua_password user))
      then mret None
      else mret (Some db_user)
  end.

(** *** Histories of the user table

    The two functions that reach [fake_users_db], as requests arriving one
    after the other, and the table each leaves behind. *)
Inductive request : Type :=
| Register (user : UserAuth)
| Authenticate (user : UserAuth).

Definition table_after (db : gmap string db_user) (r : request) : gmap string db_user :=
  match r with
  | Register user => (register_new_user user db).2
  | Authenticate user => (authenticate_user user db).2
  end.

Definition table_after_all (rs : list request) : gmap string db_user :=
  foldl table_after fake_users_db rs.

(** Every record sits under its own name and is enabled. *)
Definition well_keyed (db : gmap string db_user) : Prop :=
  map_Forall (λ k r, username r = k ∧ disabled r = false) db.

End Auth.

(** ** main.py *)

Module Main.
Import Auth.

(** *** Auth endpoints *)

Record TokenResponse : Type := mk_TokenResponse {
  access_token : token;
  token_type : string;
  expires_in : Z
}.

(** [POST /register], handled when the clock reads [now]. *)
Definition register (user : UserAuth) (now : Z)
  : M (gmap string db_user) TokenResponse :=
  register_new_user user;;
  access_token ← lift (create_access_token
                         {[ "sub" := PStr (ua_username user) ]}
                         (Some (timedelta_minutes ACCESS_TOKEN_EXPIRE_MINUTES))
                         now);
  mret (mk_TokenResponse access_token "Bearer" (ACCESS_TOKEN_EXPIRE_MINUTES * 60)).

(** [POST /login]. *)
Definition login (user : UserAuth) (now : Z)
  : M (gmap string db_user) TokenResponse :=
  authenticated_user ← authenticate_user user;
  match authenticated_user with
  | None => raise (HTTPException 401 "Incorrect username or password")
  | Some _ =>
      access_token ← lift (create_access_token
                             {[ "sub" := PStr (ua_username user) ]}
                             (Some (timedelta_minutes ACCESS_TOKEN_EXPIRE_MINUTES))
                             now);
      mret (mk_TokenResponse access_token "Bearer" (ACCESS_TOKEN_EXPIRE_MINUTES * 60))
  end.

(** *** Request parameters

    A [Query(default, ge=..., le=...)] declaration.  The framework checks
    the declared bounds before the endpoint body runs and answers 422 when
    one fails; a bound that is not declared is not checked. *)
Record Query : Type := mk_Query {
  q_default : Q;
  q_ge : option Q;
  q_le : option Q
}.

Definition query_param (decl : Query) (sent : option pyfloat) : result pyfloat :=
  let v := default (Finite (q_default decl)) sent in
  let ge_ok := match q_ge decl with Some b => float_ge v b | None => true end in
  let le_ok := match q_le decl with Some b => float_le v b | None => true end in
  if ge_ok && le_ok then Return v
  else Raise (HTTPException 422 "Unprocessable Entity").

(** [conf: float = Query(0.25, ge=0.0, le=1.0)] of [predict_image]. *)
Definition conf_of_predict_image : Query := mk_Query 0.25 (Some 0%Q) (Some 1%Q).

(** [conf: float = Query(0.25)] of [predict_video]. *)
Definition conf_of_predict_video : Query := mk_Query 0.25 None None.

Definition HTTP_500 (e : exn) : exn := HTTPException 500 (str_exn e).

Section Endpoints.

(** [Picture] is what the model is run on (a decoded image or one video
    frame) and [Array] is what [plot()] draws. *)
Context {Picture Array : Type}.

(** One element of what [model.predict] returns. *)
Record Results : Type := mk_Results {
  names : gmap Z string;
  boxes_cls : list Z;
  plot : Array
}.

(** What OpenCV finds in an uploaded video. *)
Record Video : Type := mk_Video {
  frame_width : Z;
  frame_height : Z;
  frames_per_second : Z;
  video_frames : list Picture
}.

(** An upload: its declared content type, what [Image.open] makes of its
    bytes, and what [cv2.VideoCapture] finds in them ([None] when the
    capture does not open). *)
Record UploadFile : Type := mk_UploadFile {
  content_type : option string;
  as_image : result Picture;
  as_video : option Video
}.

(** [model.predict(x, conf=conf)[0]]. *)
Variable model_predict : Picture → pyfloat → result Results.

(** The colour conversion, JPEG encoding and base64 of the image branch. *)
Variable jpeg_base64 : Array → result string.

(** The exception, if any, that [out.write] raises on a frame. *)
Variable write_raises : Array → option exn.

(** Whether [cv2.VideoWriter(path, fourcc, fps, (width, height))] opens,
    which is when it creates the file. *)
Variable writer_opens : Z → Z → Z → bool.

(** *** 1. Image prediction *)

Record ImageResponse : Type := mk_ImageResponse {
  total_vehicles : nat;
  breakdown : gmap string nat;
  status : string;
  annotated_image : string
}.

(** [Counter(labels)]. *)
Definition Counter (labels : list string) : gmap string nat :=
  foldl (λ counts x, <[x := S (default 0 (counts !! x))]> counts) ∅ labels.

(** [sum(counts.values())]. *)
Definition sum_values (counts : gmap string nat) : nat :=
  map_fold (λ _ v acc, v + acc) 0 counts.

(** [[names[int(c)] for c in cls]], with the [KeyError] of a class id that
    has no name. *)
Definition class_names (names : gmap Z string) (cls : list Z) : result (list string) :=
  match mapM (λ c, names !! c) cls with
  | Some labels => Return labels
  | None => Raise (PyException "KeyError")
  end.

Definition status_of (total : nat) : string :=
  if 15 <? total then "Congested 🚨" else "Clear ✅".

Definition predict_image_body (file : UploadFile) (conf : pyfloat)
  : result ImageResponse :=
  match
    (image ← as_image file;
     result ← model_predict image conf;
     let annotated_array := plot result in
     img_str ← jpeg_base64 annotated_array;
     labels ← class_names (names result) (boxes_cls result);
     let counts := Counter labels in
     let total := sum_values counts in
     mret (mk_ImageResponse total counts (status_of total) img_str))
  with
  | Return r => Return r
  | Raise e => Raise (HTTP_500 e)
  end.

(** [POST /predict/image]: the token dependency, then the declared
    parameters, then the body. *)
Definition predict_image (credentials : token) (now : Z) (file : UploadFile)
    (conf : option pyfloat) : result ImageResponse :=
  verify_token credentials now ≫= λ username,
  query_param conf_of_predict_image conf ≫= λ conf,
  predict_image_body file conf.

(** *** 2. Video prediction *)

(** What the video endpoint can touch: the paths on disk, the capture
    [cap] (whether it is open, and the frames it has not yet delivered)
    and the writer [out] (whether it is open, and the frames handed to
    [out.write], oldest first). *)
Record world : Type := mk_world {
  fs : gset string;
  cap_opened : bool;
  cap_frames : list Picture;
  out_opened : bool;
  out_frames : list Array
}.

Record FileResponse : Type := mk_FileResponse {
  path : string;
  media_type : string;
  filename : string
}.

Definition create_file (p : string) (w : world) : world :=
  mk_world ({[p]} ∪ fs w) (cap_opened w) (cap_frames w) (out_opened w) (out_frames w).

Definition os_remove (p : string) (w : world) : world :=
  mk_world (fs w ∖ {[p]}) (cap_opened w) (cap_frames w) (out_opened w) (out_frames w).

(** [cap = cv2.VideoCapture(input_path)]. *)
Definition VideoCapture (v : option Video) (w : world) : world :=
  match v with
  | Some v => mk_world (fs w) true (video_frames v) (out_opened w) (out_frames w)
  | None => mk_world (fs w) false [] (out_opened w) (out_frames w)
  end.

(** [int(cap.get(prop))]: an unopened capture answers 0. *)
Definition cap_get (v : option Video) (prop : Video → Z) : Z :=
  match v with
  | Some v => prop v
  | None => 0%Z
  end.

(** [out = cv2.VideoWriter(output_path, fourcc, fps, (width, height))]. *)
Definition VideoWriter (output_path : string) (fps width height : Z) (w : world) : world :=
  if writer_opens fps width height
  then mk_world ({[output_path]} ∪ fs w) (cap_opened w) (cap_frames w) true []
  else mk_world (fs w) (cap_opened w) (cap_frames w) false [].

(** [ret, frame = cap.read()] delivering [frame], with [rest] still to come. *)
Definition cap_read (rest : list Picture) (w : world) : world :=
  mk_world (fs w) (cap_opened w) rest (out_opened w) (out_frames w).

Definition out_write (annotated_frame : Array) : M world unit :=
  match write_raises annotated_frame with
  | Some e => raise e
  | None =>
      modify (λ w, mk_world (fs w) (cap_opened w) (cap_frames w) (out_opened w)
                            (out_frames w ++ [annotated_frame]))
  end.

Definition cap_release (w : world) : world :=
  mk_world (fs w) false (cap_frames w) (out_opened w) (out_frames w).

Definition out_release (w : world) : world :=
  mk_world (fs w) (cap_opened w) (cap_frames w) false (out_frames w).

(** The body of [while cap.isOpened():] for an open capture that still
    holds [frames], entered with the counter at [frame_count].  An empty
    capture answers [ret = False] and the loop breaks. *)
Fixpoint frame_loop (conf : pyfloat) (frames : list Picture) (frame_count : nat)
  : M world unit :=
  match frames with
  | [] => mret tt
  | frame :: rest =>
      modify (cap_read rest);;
      results ← lift (model_predict frame conf);
      let annotated_frame := plot results in
      out_write annotated_frame;;
      let frame_count := frame_count + 1 in
      if 300 <? frame_count then mret tt
      else frame_loop conf rest frame_count
  end.

(** The world once one more frame has been read, drawn and written, with
    [rest] left in the capture. *)
Definition written (rest : list Picture) (a : Array) (w : world) : world :=
  mk_world (fs w) (cap_opened w) rest (out_opened w) (out_frames w ++ [a]).

(** [a] is what the loop body draws for [frame]:
    [model.predict(frame, conf=conf, verbose=False)[0].plot()]. *)
Definition annotates (conf : pyfloat) (frame : Picture) (a : Array) : Prop :=
  ∃ results, model_predict frame conf = Return results ∧ plot results = a.

(** The loop body goes through for [frame]: the model answers and the
    writer takes the drawing. *)
Definition processes (conf : pyfloat) (frame : Picture) : Prop :=
  ∃ results, model_predict frame conf = Return results ∧
             write_raises (plot results) = None.

(** The loop body stops at [frame] with [e]: the model raises it, or the
    writer does on the drawing. *)
Definition stops_at (conf : pyfloat) (frame : Picture) (e : exn) : Prop :=
  model_predict frame conf = Raise e ∨
  ∃ results, model_predict frame conf = Return results ∧
             write_raises (plot results) = Some e.

(** The [finally] clause: [if os.path.exists(p): os.remove(p)]. *)
Definition remove_if_exists (p : string) : M world unit :=
  w ← get;
  if bool_decide (p ∈ fs w) then modify (os_remove p) else mret tt.

(** Lines 88 to 96: the capture on the saved upload, its three
    properties, and the writer on [output_path]. *)
Definition open_capture_and_writer (file : UploadFile) (output_path : string)
  : M world unit :=
  modify (VideoCapture (as_video file));;
  let width := cap_get (as_video file) frame_width in
  let height := cap_get (as_video file) frame_height in
  let fps := cap_get (as_video file) frames_per_second in
  modify (VideoWriter output_path fps width height).

(** Lines 98 to 115: the counter set to 0 and the [while] loop. *)
Definition process_frames (conf : pyfloat) : M world unit :=
  w ← get;
  if cap_opened w then frame_loop conf (cap_frames w) 0 else mret tt.

(** The handler body, lines 76 to 128, for an upload whose copy into the
    temporary file goes through ([predict_video_handler] below has the
    copy that fails).  What it returns is what the handler returns; the
    response is sent afterwards ([send_FileResponse]). *)
Definition predict_video_body (file : UploadFile) (conf : pyfloat)
    (tmp_stem : string) : M world FileResponse :=
  match content_type file with
  | None => raise (PyException "argument of type 'NoneType' is not iterable")
  | Some ct =>
      if negb (str_in "video" ct)
      then raise (HTTPException 400 "File must be a video.")
      else
        let input_path := tmp_stem +:+ ".mp4" in
        modify (create_file input_path);;
        let output_path := str_replace ".mp4" "_out.mp4" input_path in
        try_finally
          (try_except
             (open_capture_and_writer file output_path;;
              process_frames conf;;
              modify cap_release;;
              modify out_release;;
              mret (mk_FileResponse output_path "video/mp4" "traffic_analysis.mp4"))
             HTTP_500)
          (remove_if_exists input_path)
  end.

(** Lines 76 to 128 with the outcome of the save at lines 80 to 82 given.
    The [with] block that copies the upload into the temporary file sits
    before the [try] and makes the file with [delete=False]: when
    [copyfileobj] raises ([copy_raises] is that exception), the exception
    leaves the handler as it is and the file stays; when it goes through,
    the rest is [predict_video_body]. *)
Definition predict_video_handler (copy_raises : option exn) (file : UploadFile)
    (conf : pyfloat) (tmp_stem : string) : M world FileResponse :=
  match copy_raises with
  | None => predict_video_body file conf tmp_stem
  | Some e =>
      match content_type file with
      | None => raise (PyException "argument of type 'NoneType' is not iterable")
      | Some ct =>
          if negb (str_in "video" ct)
          then raise (HTTPException 400 "File must be a video.")
          else
            let input_path := tmp_stem +:+ ".mp4" in
            modify (create_file input_path);;
            raise e
      end
  end.

(** Sending a [FileResponse], which the framework does after the handler
    has returned: the path is looked up then, and a path that names no
    file is a [RuntimeError], which the server answers with a 500. *)
Definition send_FileResponse (resp : FileResponse) (w : world) : result unit :=
  if bool_decide (path resp ∈ fs w) then Return tt
  else Raise (PyException ("File at path " +:+ path resp +:+ " does not exist.")).

(** [POST /predict/video]: the token dependency, then the declared
    parameters, then the body.  [tmp_stem] is the directory and random
    name [NamedTemporaryFile] picks, before the suffix. *)
Definition predict_video (credentials : token) (now : Z) (file : UploadFile)
    (conf : option pyfloat) (tmp_stem : string) : M world FileResponse :=
  lift (verify_token credentials now);;
  conf ← lift (query_param conf_of_predict_video conf);
  predict_video_body file conf tmp_stem.

End Endpoints.

End Main.

(** ** Concrete inputs *)

Module Sample.
Import Auth Main.

Definition alice : UserAuth := mk_UserAuth "alice" "wonderland".

(** A signed, unexpired token with no subject claim, and one whose subject
    is the empty string. *)
Definition no_subject : token :=
  Jws ALGORITHM {[ "exp" := PInt 1800 ]} SECRET_KEY.

Definition empty_subject : token :=
  Jws ALGORITHM (<["exp" := PInt 1800]> {[ "sub" := PStr "" ]}) SECRET_KEY.

(** A signed token for admin that expires at second 1800. *)
Definition admin_token : token :=
  Jws ALGORITHM (<["exp" := PInt 1800]> {[ "sub" := PStr "admin" ]}) SECRET_KEY.

(** A picture is the number of vehicles in it; the model finds them all,
    calls them cars, and draws that number. *)
Definition model_predict (picture : nat) (conf : pyfloat) : result (@Results nat) :=
  Return (mk_Results {[ 0%Z := "car"; 1%Z := "bus" ]} (replicate picture 0%Z) picture).

(** A model that fails on every frame. *)
Definition model_down (picture : nat) (conf : pyfloat) : result (@Results nat) :=
  Raise (PyException "CUDA out of memory").

Definition jpeg_base64 (a : nat) : result string := Return "/9j/4AAQ".
Definition write_raises (a : nat) : option exn := None.
Definition writer_opens (fps width height : Z) : bool := true.

(** An upload declared as video/mp4 holding [n] frames. *)
Definition clip (n : nat) : @UploadFile nat :=
  mk_UploadFile (Some "video/mp4")
    (Raise (PyException "cannot identify image file"))
    (Some (mk_Video 640 480 30 (seq 0 n))).

(** An image upload showing [n] vehicles. *)
Definition photo (n : nat) : @UploadFile nat :=
  mk_UploadFile (Some "image/jpeg") (Return n) None.

(** An empty disk, nothing open. *)
Definition idle : @world nat nat := mk_world ∅ false [] false [].

End Sample.

Module MoreSamples.
Import Auth Main.

(** An upload declared as video/mp4 in which OpenCV finds no video. *)
Definition garbled : @UploadFile nat :=
  mk_UploadFile (Some "video/mp4")
    (Raise (PyException "cannot identify image file")) None.

(** A model that fails on picture 2 and on no other. *)
Definition model_flaky (picture : nat) (conf : pyfloat) : result (@Results nat) :=
  if Nat.eqb picture 2 then Raise (PyException "CUDA out of memory")
  else Sample.model_predict picture conf.

(** A build of OpenCV whose writer never opens. *)
Definition writer_shut (fps width height : Z) : bool := false.

(** A token signed with another key. *)
Definition forged_token : token :=
  Jws ALGORITHM (<["exp" := PInt 1800]> {[ "sub" := PStr "admin" ]}) "guess".

End MoreSamples.

Import Auth Main.

(** ** Properties of auth.py and of the auth endpoints *)

Section AuthFacts.

Local Open Scope Z_scope.

(** The payload [create_access_token] signs for a lone subject claim. *)
Lemma create_access_token_sub (u : string) (expires_delta : option Z) (now : Z) :
  create_access_token {[ "sub" := PStr u ]} expires_delta now =
  Return (Jws ALGORITHM
            (<["exp" := PInt ((if timedelta_truthy expires_delta
                               then now + default 0 expires_delta
                               else now + timedelta_minutes 15) `div` 1000000)]>
               {[ "sub" := PStr u ]})
            SECRET_KEY).
Proof.
  unfold create_access_token, jwt_encode.
  set (e := if timedelta_truthy expires_delta then _ else _).
  rewrite alter_insert_eq. cbn [to_int_date].
  rewrite !alter_insert_ne by done. rewrite !alter_singleton_ne by done.
  rewrite bool_decide_eq_true_2; [done|].
  apply map_Forall_insert_2; [done|]. by apply map_Forall_singleton.
Qed.

(** Decoding a token of that shape, signed with the server's key. *)
Lemma verify_token_sub_exp (u : string) (exp now : Z) :
  verify_token (Jws ALGORITHM (<["exp" := PInt exp]> {[ "sub" := PStr u ]}) SECRET_KEY) now =
  if exp * 1000000 <=? now
  then Raise (HTTPException 401 "Token has expired! Login again.")
  else Return (PStr u).
Proof.
  unfold verify_token, jwt_decode, validate_claims.
  rewrite bool_decide_eq_true_2 by set_solver.
  rewrite (bool_decide_eq_true_2 (SECRET_KEY = SECRET_KEY)) by done.
  cbn [negb].
  unfold validate_iat, validate_nbf, validate_exp, validate_aud,
    validate_sub, validate_jti.
  simplify_map_eq. cbn [first_failure].
  destruct (exp * 1000000 <=? now); cbn [first_failure]; [done|].
  simplify_map_eq. done.
Qed.

(** A token whose expiry has been reached is turned away as expired. *)
Lemma expired_token_rejected (u : string) (expires_delta : option Z) (issued now : Z) :
  (if timedelta_truthy expires_delta
   then issued + default 0 expires_delta
   else issued + timedelta_minutes 15) `div` 1000000 * 1000000 ≤ now →
  ∃ tok, create_access_token {[ "sub" := PStr u ]} expires_delta issued = Return tok ∧
         verify_token tok now = Raise (HTTPException 401 "Token has expired! Login again.").
Proof.
  intros Hexp. eexists. split; [apply create_access_token_sub|].
  rewrite verify_token_sub_exp.
  by rewrite (proj2 (Z.leb_le _ _) Hexp).
Qed.

(** The thirty-minute tokens of the endpoints are good for at least 1799
    seconds after they are issued. *)
Lemma endpoint_token_verifies (u : string) (issued now : Z) :
  now < issued + 1799 * 1000000 →
  ∃ tok,
    create_access_token {[ "sub" := PStr u ]}
      (Some (timedelta_minutes ACCESS_TOKEN_EXPIRE_MINUTES)) issued = Return tok ∧
    verify_token tok now = Return (PStr u).
Proof.
  intros Hnow. eexists. split; [apply create_access_token_sub|].
  rewrite verify_token_sub_exp.
  cbn [timedelta_truthy default].
  unfold timedelta_minutes, ACCESS_TOKEN_EXPIRE_MINUTES.
  replace (negb (30 * 60 * 1000000 =? 0)) with true by done.
  rewrite (proj2 (Z.leb_gt _ _)); [done|]. unfold id.
  pose proof (Z.mul_div_le (issued + 30 * 60 * 1000000) 1000000 ltac:(lia)).
  pose proof (Z.mod_pos_bound (issued + 30 * 60 * 1000000) 1000000 ltac:(lia)).
  pose proof (Z.div_mod (issued + 30 * 60 * 1000000) 1000000 ltac:(lia)).
  lia.
Qed.

(** C2, as amended.  A token that decodes to a payload with no "sub" claim
    is refused with a 401, "Token is missing username"; a subject that is
    present as a string, the empty string included, is what verification
    returns. *)
Theorem missing_subject_rejected (tok : token) (now : Z) (payload : gmap string pyval) :
  jwt_decode tok SECRET_KEY [ALGORITHM] now = Return payload →
  (payload !! "sub" = None →
   verify_token tok now = Raise (HTTPException 401 "Token is missing username")) ∧
  (∀ s, payload !! "sub" = Some (PStr s) → verify_token tok now = Return (PStr s)).
Proof.
  intros Hdec. unfold verify_token. rewrite Hdec. split.
  - intros ->. done.
  - intros s ->. done.
Qed.

Lemma missing_subject_rejected_witness :
  verify_token Sample.no_subject 0 = Raise (HTTPException 401 "Token is missing username").
Proof.
  apply (missing_subject_rejected Sample.no_subject 0 {[ "exp" := PInt 1800 ]});
    vm_compute; reflexivity.
Defined.

(** C2 as the specification words it fails: a properly signed, unexpired
    token whose subject is the empty string decodes, and verification
    returns that empty string instead of failing. *)
Lemma empty_subject_returned :
  jwt_decode Sample.empty_subject SECRET_KEY [ALGORITHM] 0 =
    Return (<["exp" := PInt 1800]> {[ "sub" := PStr "" ]}) ∧
  verify_token Sample.empty_subject 0 = Return (PStr "").
Proof. split; vm_compute; reflexivity. Qed.

(** C8 at a time-to-live of zero.  [timedelta(0)] is false in Python, so
    [create_access_token] takes the branch meant for "no time specified":
    the token expires fifteen minutes on, and verifying it at the instant
    it was issued returns the subject instead of reporting it expired. *)
Theorem zero_ttl_token_accepted (u : string) (now : Z) :
  ∃ tok exp,
    create_access_token {[ "sub" := PStr u ]} (Some 0) now = Return tok ∧
    tok = Jws ALGORITHM (<["exp" := PInt exp]> {[ "sub" := PStr u ]}) SECRET_KEY ∧
    exp = (now + timedelta_minutes 15) `div` 1000000 ∧
    verify_token tok now = Return (PStr u).
Proof.
  do 2 eexists. split; [apply create_access_token_sub|].
  cbn [timedelta_truthy Z.eqb negb]. split; [done|]. split; [done|].
  rewrite verify_token_sub_exp. unfold timedelta_minutes.
  rewrite (proj2 (Z.leb_gt _ _)); [done|].
  pose proof (Z.mod_pos_bound (now + 15 * 60 * 1000000) 1000000 ltac:(lia)).
  pose proof (Z.div_mod (now + 15 * 60 * 1000000) 1000000 ltac:(lia)).
  lia.
Qed.

(** How often a key occurs among the entries of a table. *)
Lemma no_entry_for_absent_key {A} (l : list (string * A)) (k : string) :
  k ∉ l.*1 → filter (λ kv, kv.1 = k) l = [].
Proof.
  induction l as [|[k' x'] l IH]; [done|].
  rewrite fmap_cons, not_elem_of_cons. intros [Hne Hl].
  rewrite filter_cons_False by (cbn; intros ->; by apply Hne). auto.
Qed.

Lemma one_entry_per_key {A} (db : gmap string A) (k : string) :
  is_Some (db !! k) →
  length (filter (λ kv, kv.1 = k) (map_to_list db)) = 1%nat.
Proof.
  intros [x Hx]. apply elem_of_map_to_list in Hx.
  pose proof (NoDup_fst_map_to_list db) as Hnd.
  induction (map_to_list db) as [|[k' x'] l IH]; [by apply elem_of_nil in Hx|].
  rewrite fmap_cons in Hnd. apply NoDup_cons in Hnd as [Hk' Hnd].
  apply elem_of_cons in Hx as [Hx|Hx].
  - injection Hx as <- <-. rewrite filter_cons_True by done.
    by rewrite no_entry_for_absent_key.
  - rewrite filter_cons_False; [auto|].
    cbn. intros ->. apply Hk'. apply list_elem_of_fmap. by exists (k, x).
Qed.

(** A name that is taken: the 400, and the table as it was. *)
Lemma register_new_user_taken (db : gmap string db_user) (user : UserAuth) :
  is_Some (db !! ua_username user) →
  register_new_user user db =
    (Raise (HTTPException 400 "Username already exists"), db).
Proof.
  intros Hin. unfold register_new_user, mbind, M_bind, get. cbn.
  rewrite bool_decide_eq_true_2 by (by apply elem_of_dom). done.
Qed.

(** C6.  Registering a name that the table already holds raises the 400
    "Username already exists", both in [register_new_user] and at the
    endpoint, leaves the table as it was, and the table holds one record
    under that name.  Names are compared as they are, so a different
    spelling is a different name. *)
Theorem duplicate_username_rejected (db : gmap string db_user) (user : UserAuth) (now : Z) :
  is_Some (db !! ua_username user) →
  register_new_user user db =
    (Raise (HTTPException 400 "Username already exists"), db) ∧
  Main.register user now db =
    (Raise (HTTPException 400 "Username already exists"), db) ∧
  length (filter (λ kv, kv.1 = ua_username user) (map_to_list db)) = 1%nat.
Proof.
  intros Hin. pose proof (register_new_user_taken db user Hin) as Hreg.
  split; [done|]. split.
  - unfold Main.register. unfold mbind at 1. unfold M_bind. by rewrite Hreg.
  - by apply one_entry_per_key.
Qed.

(** A first registration of a free name goes through and stores the record. *)
Lemma register_new_user_fresh (db : gmap string db_user) (user : UserAuth) :
  db !! ua_username user = None →
  register_new_user user db =
    (Return user,
     <[ua_username user := mk_db_user (ua_username user) (ua_password user) false]> db).
Proof.
  intros Hfree. unfold register_new_user, mbind, M_bind, get. cbn.
  rewrite bool_decide_eq_false_2; [done|].
  by apply not_elem_of_dom.
Qed.

Lemma duplicate_username_rejected_witness :
  let db1 := (register_new_user Sample.alice fake_users_db).2 in
  register_new_user (mk_UserAuth "alice" "looking-glass") db1 =
    (Raise (HTTPException 400 "Username already exists"), db1).
Proof.
  intros db1.
  apply (duplicate_username_rejected db1 (mk_UserAuth "alice" "looking-glass") 0).
  vm_compute. eauto.
Defined.

(** [authenticate_user] only reads the table. *)
Lemma authenticate_user_reads (db : gmap string db_user) (user : UserAuth) :
  (authenticate_user user db).2 = db.
Proof.
  unfold authenticate_user, mbind, M_bind, get. cbn.
  destruct (db !! ua_username user) as [r|]; [|done].
  by destruct (bool_decide (password r = ua_password user)).
Qed.

(** With the right password it hands back the stored record. *)
Lemma authenticate_user_match (db : gmap string db_user) (user : UserAuth) (r : db_user) :
  db !! ua_username user = Some r → password r = ua_password user →
  authenticate_user user db = (Return (Some r), db).
Proof.
  intros Hr Hpw. unfold authenticate_user, mbind, M_bind, get. cbn.
  rewrite Hr. by rewrite bool_decide_eq_true_2.
Qed.

(** C7.  For a name not yet in the table, [register] at time [t1] and then
    [login] at a later time [t2] with the same name and password both
    return a token, and while less than 1799 seconds have passed since
    [t1] both tokens verify to that name.  Times are in microseconds. *)
Theorem register_then_login_roundtrip
    (db : gmap string db_user) (user : UserAuth) (t1 t2 tv : Z) :
  db !! ua_username user = None →
  t1 ≤ t2 → t2 ≤ tv → tv < t1 + 1799 * 1000000 →
  ∃ r1 r2 db',
    Main.register user t1 db = (Return r1, db') ∧
    Main.login user t2 db' = (Return r2, db') ∧
    verify_token (access_token r1) tv = Return (PStr (ua_username user)) ∧
    verify_token (access_token r2) tv = Return (PStr (ua_username user)).
Proof.
  intros Hfree H12 H2v Hv.
  destruct (endpoint_token_verifies (ua_username user) t1 tv) as (tok1 & Hc1 & Hv1); [lia|].
  destruct (endpoint_token_verifies (ua_username user) t2 tv) as (tok2 & Hc2 & Hv2); [lia|].
  exists (mk_TokenResponse tok1 "Bearer" (ACCESS_TOKEN_EXPIRE_MINUTES * 60)),
         (mk_TokenResponse tok2 "Bearer" (ACCESS_TOKEN_EXPIRE_MINUTES * 60)),
         (<[ua_username user :=
              mk_db_user (ua_username user) (ua_password user) false]> db).
  split; [|split; [|by split]].
  - unfold Main.register, mbind, M_bind.
    rewrite register_new_user_fresh by done.
    unfold lift. by rewrite Hc1.
  - unfold Main.login, mbind, M_bind.
    erewrite authenticate_user_match; [|apply lookup_insert_eq|done].
    unfold lift. by rewrite Hc2.
Qed.

Lemma register_then_login_roundtrip_witness :
  ∃ r1 r2 db',
    Main.register Sample.alice 1000000 fake_users_db = (Return r1, db') ∧
    Main.login Sample.alice 3000000 db' = (Return r2, db') ∧
    verify_token (access_token r1) 60000000 = Return (PStr "alice") ∧
    verify_token (access_token r2) 60000000 = Return (PStr "alice").
Proof.
  apply (register_then_login_roundtrip fake_users_db Sample.alice 1000000 3000000 60000000);
    [vm_compute; reflexivity | lia | lia | lia].
Defined.

(** Neither function breaks the keying of the table. *)
Lemma table_after_well_keyed (db : gmap string db_user) (r : request) :
  well_keyed db → well_keyed (table_after db r).
Proof.
  intros Hdb. destruct r as [user|user]; cbn [table_after].
  - destruct (db !! ua_username user) as [x|] eqn:Hx.
    + by rewrite register_new_user_taken by (by rewrite Hx).
    + rewrite register_new_user_fresh by done. cbn [snd].
      by apply map_Forall_insert_2.
  - by rewrite authenticate_user_reads.
Qed.

(** C10.  The table as the module creates it, and the table after any
    run of register and authenticate calls, keeps every record under its
    own name with [disabled] false; and [authenticate_user] returns the
    table it was given. *)
Theorem user_table_invariant (rs : list request) :
  well_keyed (table_after_all rs) ∧
  ∀ db user, (authenticate_user user db).2 = db.
Proof.
  split; [|apply authenticate_user_reads].
  unfold table_after_all.
  assert (well_keyed fake_users_db) as Hinit by (by apply map_Forall_singleton).
  revert Hinit. generalize fake_users_db.
  induction rs as [|r rs IH]; intros db Hdb; [done|].
  cbn [foldl]. by apply IH, table_after_well_keyed.
Qed.

End AuthFacts.

(** ** Properties of the prediction endpoints *)

Section ImageFacts.
Context {Picture Array : Type}.
Variable model_predict : Picture → pyfloat → result (@Results Array).
Variable jpeg_base64 : Array → result string.

(** Counting one more label adds one to the sum of the counts. *)
Lemma sum_values_count_one (counts : gmap string nat) (x : string) :
  sum_values (<[x := S (default 0 (counts !! x))]> counts) = S (sum_values counts).
Proof.
  unfold sum_values.
  destruct (counts !! x) as [n|] eqn:Hx; cbn [default from_option].
  - rewrite <-(insert_delete_eq counts).
    rewrite map_fold_insert_L; [|intros; lia|apply lookup_delete_eq].
    rewrite (map_fold_delete_L _ _ x n counts); [unfold id; lia|intros; lia|done].
  - rewrite map_fold_insert_L; [done|intros; lia|done].
Qed.

(** The counts of a [Counter] add up to the number of labels counted. *)
Lemma sum_values_Counter (labels : list string) :
  sum_values (Counter labels) = length labels.
Proof.
  unfold Counter.
  assert (∀ counts, sum_values (foldl (λ counts x,
            <[x := S (default 0 (counts !! x))]> counts) counts labels)
          = sum_values counts + length labels) as Hgen.
  { induction labels as [|x labels IH]; intros counts; cbn [foldl length]; [lia|].
    rewrite IH, sum_values_count_one. lia. }
  rewrite Hgen. unfold sum_values. by rewrite map_fold_empty.
Qed.

Lemma class_names_length (names : gmap Z string) (cls : list Z) (labels : list string) :
  class_names names cls = Return labels → length labels = length cls.
Proof.
  unfold class_names. destruct (mapM _ cls) as [l|] eqn:Hm; [|done].
  intros [= <-]. apply mapM_Some_1 in Hm. symmetry. by eapply Forall2_length.
Qed.

Lemma class_names_total (names : gmap Z string) (cls : list Z) :
  (∀ c, c ∈ cls → is_Some (names !! c)) →
  ∃ labels, class_names names cls = Return labels.
Proof.
  intros Hall. unfold class_names.
  destruct (mapM_is_Some_2 (λ c, names !! c) cls) as [l ->]; [|eauto].
  apply Forall_forall. intros c Hc. by apply Hall.
Qed.

Lemma status_of_congested (total : nat) :
  status_of total = "Congested 🚨" ↔ 15 < total.
Proof.
  unfold status_of. destruct (15 <? total) eqn:Hlt.
  - apply Nat.ltb_lt in Hlt. done.
  - apply Nat.ltb_ge in Hlt. split; [done|lia].
Qed.

Lemma status_of_clear (total : nat) :
  status_of total = "Clear ✅" ↔ total ≤ 15.
Proof.
  unfold status_of. destruct (15 <? total) eqn:Hlt.
  - apply Nat.ltb_lt in Hlt. split; [done|lia].
  - apply Nat.ltb_ge in Hlt. done.
Qed.

(** C5.  When the image opens, the model answers, the picture encodes and
    every detected class has a name, the image branch returns a response
    whose total is the number of detections and whose status is
    "Congested 🚨" exactly when that number is over 15 and "Clear ✅"
    otherwise: 15 detections read clear, 16 read congested. *)
Theorem status_congested_above_15
    (file : @UploadFile Picture) (conf : pyfloat) (image : Picture)
    (res : @Results Array) (img_str : string) :
  as_image file = Return image →
  model_predict image conf = Return res →
  jpeg_base64 (plot res) = Return img_str →
  (∀ c, c ∈ boxes_cls res → is_Some (names res !! c)) →
  ∃ r, predict_image_body model_predict jpeg_base64 file conf = Return r ∧
       total_vehicles r = length (boxes_cls res) ∧
       (status r = "Congested 🚨" ↔ 15 < length (boxes_cls res)) ∧
       (status r = "Clear ✅" ↔ length (boxes_cls res) ≤ 15) ∧
       status_of 15 = "Clear ✅" ∧ status_of 16 = "Congested 🚨".
Proof.
  intros Himg Hres Hjpg Hnames.
  destruct (class_names_total _ _ Hnames) as [labels Hlabels].
  pose proof (class_names_length _ _ _ Hlabels) as Hlen.
  eexists. unfold predict_image_body.
  rewrite Himg. cbn [mbind result_bind]. rewrite Hres. cbn [mbind result_bind].
  rewrite Hjpg. cbn [mbind result_bind]. rewrite Hlabels.
  cbn [mbind result_bind mret result_ret].
  split; [reflexivity|]. cbn [total_vehicles status].
  rewrite sum_values_Counter, Hlen.
  split; [done|]. split; [apply status_of_congested|].
  split; [apply status_of_clear|]. done.
Qed.

End ImageFacts.

Lemma status_congested_above_15_witness :
  ∃ r, predict_image_body Sample.model_predict Sample.jpeg_base64
         (Sample.photo 16) (Finite 0.25) = Return r ∧
       total_vehicles r = 16 ∧ status r = "Congested 🚨".
Proof.
  destruct (status_congested_above_15 Sample.model_predict Sample.jpeg_base64
              (Sample.photo 16) (Finite 0.25) 16
              (mk_Results {[ 0%Z := "car"; 1%Z := "bus" ]} (replicate 16 0%Z) 16)
              "/9j/4AAQ")
    as (r & Hr & Htotal & Hcongested & _).
  - reflexivity.
  - reflexivity.
  - reflexivity.
  - intros c Hc. apply elem_of_replicate in Hc as [-> _]. vm_compute. eauto.
  - exists r. split; [exact Hr|]. split; [exact Htotal|].
    apply Hcongested. vm_compute. lia.
Defined.

Section VideoFacts.
Context {Picture Array : Type}.
Variable model_predict : Picture → pyfloat → result (@Results Array).
Variable write_raises : Array → option exn.
Variable writer_opens : Z → Z → Z → bool.

Local Abbreviation frame_loop := (frame_loop model_predict write_raises).
Local Abbreviation predict_video_body := (predict_video_body model_predict write_raises writer_opens).
Local Abbreviation process_frames := (process_frames model_predict write_raises).
Local Abbreviation open_capture_and_writer := (open_capture_and_writer writer_opens).
Local Abbreviation annotates := (annotates model_predict).
Local Abbreviation processes := (processes model_predict write_raises).
Local Abbreviation stops_at := (stops_at model_predict write_raises).
Local Abbreviation predict_video_handler :=
  (predict_video_handler model_predict write_raises writer_opens).

Lemma frame_loop_step (conf : pyfloat) (frame : Picture) (rest : list Picture)
    (k : nat) (w : world) (results : Results) :
  model_predict frame conf = Return results →
  write_raises (plot results) = None →
  frame_loop conf (frame :: rest) k w =
  if 300 <? k + 1 then (Return tt, written rest (plot results) w)
  else frame_loop conf rest (k + 1) (written rest (plot results) w).
Proof.
  intros Hres Hwr. cbn [Main.frame_loop].
  unfold mbind, M_bind, modify, lift, out_write. rewrite Hres, Hwr.
  destruct (300 <? k + 1); reflexivity.
Qed.

(** What a run of the loop leaves: the drawings of a prefix of the frames,
    appended in order, with the disk and both handles as they were. *)
Lemma frame_loop_prefix (conf : pyfloat) (frames : list Picture) (k : nat) (w : world) :
  k ≤ 300 →
  ∃ n anns,
    n ≤ length frames ∧
    Forall2 (annotates conf) (take n frames) anns ∧
    out_frames (frame_loop conf frames k w).2 = out_frames w ++ anns ∧
    fs (frame_loop conf frames k w).2 = fs w ∧
    cap_opened (frame_loop conf frames k w).2 = cap_opened w ∧
    out_opened (frame_loop conf frames k w).2 = out_opened w ∧
    ((frame_loop conf frames k w).1 = Return tt → n = length frames `min` (301 - k)).
Proof.
  revert k w. induction frames as [|frame rest IH]; intros k w Hk.
  - exists 0, []. cbn. rewrite app_nil_r. repeat split; auto.
  - destruct (model_predict frame conf) as [results|e] eqn:Hres.
    2:{ exists 0, []. cbn [Main.frame_loop].
        unfold mbind, M_bind, modify, lift. rewrite Hres. cbn.
        rewrite app_nil_r. repeat split; auto with lia. done. }
    destruct (write_raises (plot results)) as [e|] eqn:Hwr.
    { exists 0, []. cbn [Main.frame_loop].
      unfold mbind, M_bind, modify, lift, out_write. rewrite Hres, Hwr. cbn.
      rewrite app_nil_r. repeat split; auto with lia. done. }
    rewrite (frame_loop_step _ _ _ _ _ _ Hres Hwr).
    destruct (300 <? k + 1) eqn:Hcap.
    + apply Nat.ltb_lt in Hcap.
      exists 1, [plot results]. cbn. repeat split; auto with lia.
      * constructor; [by exists results|constructor].
      * intros _. replace (301 - k) with 1 by lia. lia.
    + apply Nat.ltb_ge in Hcap.
      destruct (IH (k + 1) (written rest (plot results) w)) as
        (n & anns & Hn & Hanns & Hout & Hfs & Hcap' & Hout' & Hret); [lia|].
      exists (S n), (plot results :: anns). cbn [length take].
      split; [lia|]. split; [constructor; [by exists results|done]|].
      rewrite Hout, Hfs, Hcap', Hout'. cbn. rewrite <-app_assoc.
      repeat split; auto. intros Hr. rewrite (Hret Hr).
      destruct (301 - k) as [|m] eqn:Hm; [lia|].
      replace (301 - (k + 1)) with m by lia. done.
Qed.

(** When every frame the loop gets to goes through, the loop returns. *)
Lemma frame_loop_returns (conf : pyfloat) (frames : list Picture) (k : nat) (w : world) :
  k ≤ 300 →
  Forall (processes conf) (take (301 - k) frames) →
  (frame_loop conf frames k w).1 = Return tt.
Proof.
  revert k w. induction frames as [|frame rest IH]; intros k w Hk Hall; [done|].
  replace (301 - k) with (S (300 - k)) in Hall by lia.
  cbn [take] in Hall. apply Forall_cons in Hall as [(results & Hres & Hwr) Hall].
  rewrite (frame_loop_step _ _ _ _ _ _ Hres Hwr).
  destruct (300 <? k + 1) eqn:Hcap; [done|].
  apply Nat.ltb_ge in Hcap. apply IH; [lia|].
  by replace (301 - (k + 1)) with (300 - k) by lia.
Qed.

(** The [finally] clause never raises, takes the path off the disk and
    touches nothing else. *)
Lemma remove_if_exists_spec (p : string) (w : @world Picture Array) :
  ∃ w', remove_if_exists p w = (Return tt, w') ∧
        (p ∉ fs w') ∧ (∀ q, q ≠ p → (q ∈ fs w' ↔ q ∈ fs w)) ∧
        cap_opened w' = cap_opened w ∧ out_opened w' = out_opened w ∧
        out_frames w' = out_frames w.
Proof.
  unfold remove_if_exists, mbind, M_bind, get.
  destruct (bool_decide (p ∈ fs w)) eqn:Hp.
  - eexists. split; [reflexivity|]. cbn.
    split; [rewrite elem_of_difference, elem_of_singleton; tauto|].
    split; [|done]. intros q Hq.
    rewrite elem_of_difference, elem_of_singleton. tauto.
  - apply bool_decide_eq_false in Hp. eexists. split; [reflexivity|].
    split; [done|]. split; [done|done].
Qed.

(** Opening the capture and the writer never raises; the writer starts
    with nothing written. *)
Lemma open_capture_and_writer_spec (file : UploadFile) (output_path : string)
    (w : @world Picture Array) :
  ∃ w1, open_capture_and_writer file output_path w = (Return tt, w1) ∧
        out_frames w1 = [] ∧
        cap_frames w1 = match as_video file with
                        | Some v => video_frames v
                        | None => []
                        end ∧
        cap_opened w1 = bool_decide (is_Some (as_video file)).
Proof.
  unfold Main.open_capture_and_writer, mbind, M_bind, modify.
  eexists. split; [reflexivity|].
  unfold VideoWriter, VideoCapture.
  destruct (writer_opens _ _ _), (as_video file); done.
Qed.

(** The drawings [process_frames] leaves behind, and the handles and disk
    it leaves alone. *)
Lemma process_frames_prefix (conf : pyfloat) (w : world) :
  ∃ n anns,
    Forall2 (annotates conf) (take n (cap_frames w)) anns ∧
    out_frames (process_frames conf w).2 = out_frames w ++ anns ∧
    fs (process_frames conf w).2 = fs w ∧
    cap_opened (process_frames conf w).2 = cap_opened w ∧
    out_opened (process_frames conf w).2 = out_opened w ∧
    ((process_frames conf w).1 = Return tt →
     n = if cap_opened w then length (cap_frames w) `min` 301 else 0).
Proof.
  unfold Main.process_frames, mbind, M_bind, get.
  destruct (cap_opened w) eqn:Hopen.
  - destruct (frame_loop_prefix conf (cap_frames w) 0 w) as
      (n & anns & _ & Hanns & Hout & Hfs & Hcap & Hout' & Hret); [lia|].
    exists n, anns. by rewrite Hcap in *.
  - exists 0, []. cbn. by rewrite app_nil_r.
Qed.

(** An accepted upload: what the endpoint returns in terms of the run of
    its two middle stages. *)
Lemma predict_video_body_accepted (file : UploadFile) (conf : pyfloat)
    (tmp_stem ct : string) (w : world) :
  content_type file = Some ct → str_in "video" ct = true →
  let input_path := tmp_stem +:+ ".mp4" in
  let output_path := str_replace ".mp4" "_out.mp4" input_path in
  let run := (open_capture_and_writer file output_path;; process_frames conf)
               (create_file input_path w) in
  predict_video_body file conf tmp_stem w =
  match run.1 with
  | Return _ =>
      (Return (mk_FileResponse output_path "video/mp4" "traffic_analysis.mp4"),
       (remove_if_exists input_path (out_release (cap_release run.2))).2)
  | Raise e =>
      (Raise (HTTP_500 e), (remove_if_exists input_path run.2).2)
  end.
Proof.
  intros Hct Hvideo input_path output_path run.
  destruct (open_capture_and_writer_spec file output_path (create_file input_path w))
    as (w1 & Hopen & _).
  assert (run = process_frames conf w1) as ->.
  { subst run. unfold mbind, M_bind. by rewrite Hopen. }
  unfold Main.predict_video_body. rewrite Hct, Hvideo. cbn [negb].
  fold input_path. fold output_path.
  unfold try_finally, try_except, mbind, M_bind, modify, mret, M_ret.
  rewrite Hopen.
  destruct (process_frames conf w1) as [[[]|e] w2]; cbn [fst snd].
  - by destruct (remove_if_exists_spec input_path (out_release (cap_release w2)))
      as (w' & -> & _).
  - by destruct (remove_if_exists_spec input_path w2) as (w' & -> & _).
Qed.

Lemma process_frames_returns (conf : pyfloat) (w : @world Picture Array) :
  Forall (processes conf) (take 301 (cap_frames w)) →
  (process_frames conf w).1 = Return tt.
Proof.
  intros Hall. unfold Main.process_frames, mbind, M_bind, get.
  destruct (cap_opened w); [|done]. by apply frame_loop_returns; [lia|].
Qed.


(** C1 on the code.  When the input has more than 300 frames and the first
    301 go through, the endpoint answers with the file and the writer has
    been handed 301 frames: the counter is compared after the write and
    with a strict [>], so the frame that brings it to 301 is already out. *)
Theorem frame_cap_lets_301_through (file : UploadFile) (conf : pyfloat)
    (tmp_stem ct : string) (v : Video) (w : world) :
  content_type file = Some ct → str_in "video" ct = true →
  as_video file = Some v →
  300 < length (video_frames v) →
  Forall (processes conf) (take 301 (video_frames v)) →
  ∃ resp, (predict_video_body file conf tmp_stem w).1 = Return resp ∧
          length (out_frames (predict_video_body file conf tmp_stem w).2) = 301.
Proof.
  intros Hct Hvideo Hv Hlen Hall.
  rewrite (predict_video_body_accepted _ _ _ _ _ Hct Hvideo).
  set (input_path := tmp_stem +:+ ".mp4").
  set (output_path := str_replace ".mp4" "_out.mp4" input_path).
  destruct (open_capture_and_writer_spec file output_path (create_file input_path w))
    as (w1 & Hopen & Hout1 & Hframes1 & Hopened1).
  assert ((open_capture_and_writer file output_path;; process_frames conf)
            (create_file input_path w) = process_frames conf w1) as ->.
  { unfold mbind, M_bind. by rewrite Hopen. }
  rewrite Hv in Hframes1, Hopened1.
  rewrite bool_decide_eq_true_2 in Hopened1 by done.
  destruct (process_frames_prefix conf w1) as
    (n & anns & Hanns & Hout & _ & _ & _ & Hret).
  pose proof (process_frames_returns conf w1) as Hreturns.
  rewrite Hframes1 in Hanns, Hret, Hreturns. specialize (Hreturns Hall).
  rewrite Hopened1 in Hret. specialize (Hret Hreturns).
  rewrite Hout1 in Hout. cbn [app] in Hout.
  apply Forall2_length in Hanns. rewrite length_take in Hanns.
  destruct (process_frames conf w1) as [[[]|e] w2]; cbn [fst snd] in *; [|done].
  destruct (remove_if_exists_spec input_path (out_release (cap_release w2)))
    as (w' & -> & _ & _ & _ & _ & Hsame). cbn [snd]. rewrite Hsame.
  cbn [out_release cap_release out_frames].
  eexists. split; [done|]. rewrite Hout. lia.
Qed.

(** A loop that raises has met a frame it could not process, after
    frames it could. *)
Lemma frame_loop_raises (conf : pyfloat) (frames : list Picture) (k : nat)
    (w : world) (e : exn) :
  k ≤ 300 →
  (frame_loop conf frames k w).1 = Raise e →
  ∃ pre frame post,
    frames = pre ++ frame :: post ∧ k + length pre ≤ 300 ∧
    Forall (processes conf) pre ∧ stops_at conf frame e.
Proof.
  revert k w. induction frames as [|f rest IH]; intros k w Hk Hraise; [done|].
  destruct (model_predict f conf) as [results|e'] eqn:Hres.
  2:{ exists [], f, rest. cbn [Main.frame_loop] in Hraise.
      unfold mbind, M_bind, modify, lift in Hraise. rewrite Hres in Hraise.
      cbn in Hraise. injection Hraise as ->.
      repeat split; [cbn; lia|constructor|by left]. }
  destruct (write_raises (plot results)) as [e'|] eqn:Hwr.
  { exists [], f, rest. cbn [Main.frame_loop] in Hraise.
    unfold mbind, M_bind, modify, lift, out_write in Hraise.
    rewrite Hres, Hwr in Hraise. cbn in Hraise. injection Hraise as ->.
    repeat split; [cbn; lia|constructor|right; by exists results]. }
  rewrite (frame_loop_step _ _ _ _ _ _ Hres Hwr) in Hraise.
  destruct (300 <? k + 1) eqn:Hcap; [done|]. apply Nat.ltb_ge in Hcap.
  destruct (IH _ _ Hcap Hraise) as (pre & frame & post & -> & Hlen & Hpre & Hstop).
  exists (f :: pre), frame, post. cbn [length].
  repeat split; [lia| |done]. constructor; [by exists results|done].
Qed.

(** C4, as amended.  Once the upload has been saved and accepted, the
    saved input is off the disk at every exit of the handler; a response
    names the output path and comes with the capture and the writer
    released; a failure is a 500 that carries the text of the exception
    which the model or the writer raised on one of the first 301 frames,
    those before it having gone through, and comes with no response. *)
Theorem input_removed_on_every_exit (file : UploadFile) (conf : pyfloat)
    (tmp_stem ct : string) (w : world) :
  content_type file = Some ct → str_in "video" ct = true →
  let input_path := tmp_stem +:+ ".mp4" in
  let output_path := str_replace ".mp4" "_out.mp4" input_path in
  (input_path ∉ fs (predict_video_handler None file conf tmp_stem w).2) ∧
  match (predict_video_handler None file conf tmp_stem w).1 with
  | Return resp =>
      path resp = output_path ∧
      cap_opened (predict_video_handler None file conf tmp_stem w).2 = false ∧
      out_opened (predict_video_handler None file conf tmp_stem w).2 = false
  | Raise e =>
      ∃ v pre frame post cause,
        as_video file = Some v ∧ video_frames v = pre ++ frame :: post ∧
        length pre ≤ 300 ∧ Forall (processes conf) pre ∧
        stops_at conf frame cause ∧
        e = HTTPException 500 (str_exn cause)
  end.
Proof.
  intros Hct Hvideo input_path output_path. cbn [Main.predict_video_handler].
  rewrite (predict_video_body_accepted _ _ _ _ _ Hct Hvideo).
  fold input_path. fold output_path.
  destruct (open_capture_and_writer_spec file output_path (create_file input_path w))
    as (w1 & Hopen & _ & Hframes1 & Hopened1).
  assert ((open_capture_and_writer file output_path;; process_frames conf)
            (create_file input_path w) = process_frames conf w1) as ->.
  { unfold mbind, M_bind. by rewrite Hopen. }
  destruct (process_frames conf w1) as [[[]|e] w2] eqn:Hrun; cbn [fst snd].
  - destruct (remove_if_exists_spec input_path (out_release (cap_release w2)))
      as (w' & -> & Hgone & _ & Hcap & Hout & _). cbn [snd]. by rewrite Hcap, Hout.
  - destruct (remove_if_exists_spec input_path w2) as (w' & -> & Hgone & _).
    cbn [snd]. split; [done|].
    unfold Main.process_frames, mbind, M_bind, get in Hrun.
    destruct (cap_opened w1) eqn:Hopened; [|done].
    destruct (as_video file) as [v|] eqn:Hv;
      [|by rewrite bool_decide_eq_false_2 in Hopened1 by (by intros [? ?])].
    destruct (frame_loop_raises conf (cap_frames w1) 0 w1 e)
      as (pre & frame & post & Hsplit & Hlen & Hpre & Hstop);
      [lia|by rewrite Hrun|].
    exists v, pre, frame, post, e. rewrite <-Hframes1. repeat split; [done|lia|done..].
Qed.

(** When the save fails instead, its exception leaves the handler as it
    is and the file that was being written stays on the disk. *)
Lemma failed_save_leaves_input (file : UploadFile) (conf : pyfloat)
    (tmp_stem ct : string) (w : world) (e : exn) :
  content_type file = Some ct → str_in "video" ct = true →
  (predict_video_handler (Some e) file conf tmp_stem w).1 = Raise e ∧
  tmp_stem +:+ ".mp4" ∈ fs (predict_video_handler (Some e) file conf tmp_stem w).2.
Proof.
  intros Hct Hvideo. cbn [Main.predict_video_handler]. rewrite Hct, Hvideo.
  cbn [negb]. unfold mbind, M_bind, modify, raise. cbn.
  split; [done|]. apply elem_of_union. left. by apply elem_of_singleton.
Qed.

(** C3 on the code.  [conf] of [predict_video] is declared with no bounds,
    so for a caller with a good token any float at all, in range or not,
    goes to the body as it was sent. *)
Theorem video_conf_not_validated (credentials : token) (now : Z) (user : pyval)
    (file : UploadFile) (conf : pyfloat) (tmp_stem : string) (w : world) :
  verify_token credentials now = Return user →
  predict_video model_predict write_raises writer_opens
    credentials now file (Some conf) tmp_stem w =
  predict_video_body file conf tmp_stem w.
Proof.
  intros Htok. unfold predict_video, mbind, M_bind, lift. by rewrite Htok.
Qed.

End VideoFacts.


Lemma frame_cap_lets_301_through_witness :
  ∃ resp,
    (predict_video_body Sample.model_predict Sample.write_raises Sample.writer_opens
       (Sample.clip 500) (Finite 0.25) "/tmp/tmpk3v9x2ab" Sample.idle).1 = Return resp ∧
    length (out_frames
              (predict_video_body Sample.model_predict Sample.write_raises
                 Sample.writer_opens (Sample.clip 500) (Finite 0.25)
                 "/tmp/tmpk3v9x2ab" Sample.idle).2) = 301.
Proof.
  apply (frame_cap_lets_301_through Sample.model_predict Sample.write_raises
           Sample.writer_opens (Sample.clip 500) (Finite 0.25)
           "/tmp/tmpk3v9x2ab" "video/mp4" (mk_Video 640 480 30 (seq 0 500)) Sample.idle).
  - reflexivity.
  - reflexivity.
  - reflexivity.
  - cbn [video_frames]. rewrite length_seq. lia.
  - apply Forall_forall. intros frame _. eexists. split; reflexivity.
Defined.

Lemma input_removed_on_every_exit_witness :
  "/tmp/tmpk3v9x2ab.mp4" ∉
    fs (predict_video_handler Sample.model_down Sample.write_raises Sample.writer_opens
          None (Sample.clip 1) (Finite 0.25) "/tmp/tmpk3v9x2ab" Sample.idle).2.
Proof.
  apply (input_removed_on_every_exit Sample.model_down Sample.write_raises
           Sample.writer_opens (Sample.clip 1) (Finite 0.25)
           "/tmp/tmpk3v9x2ab" "video/mp4" Sample.idle); reflexivity.
Defined.

(** C4 as the specification words it fails.  One frame, and the model
    raises on it: the request ends in a 500 with the saved input gone,
    but the output file that the writer made is still on the disk and
    neither the capture nor the writer has been released. *)
Lemma failure_leaves_output_behind :
  let out := predict_video_body Sample.model_down Sample.write_raises
               Sample.writer_opens (Sample.clip 1) (Finite 0.25)
               "/tmp/tmpk3v9x2ab" Sample.idle in
  out.1 = Raise (HTTPException 500 "CUDA out of memory") ∧
  fs out.2 = {[ "/tmp/tmpk3v9x2ab_out.mp4" ]} ∧
  cap_opened out.2 = true ∧ out_opened out.2 = true ∧
  ¬ (("/tmp/tmpk3v9x2ab.mp4" ∉ fs out.2) ∧
     cap_opened out.2 = false ∧ out_opened out.2 = false ∧
     ("/tmp/tmpk3v9x2ab_out.mp4" ∉ fs out.2)).
Proof.
  assert (predict_video_body Sample.model_down Sample.write_raises
            Sample.writer_opens (Sample.clip 1) (Finite 0.25)
            "/tmp/tmpk3v9x2ab" Sample.idle =
          (Raise (HTTPException 500 "CUDA out of memory"),
           mk_world {[ "/tmp/tmpk3v9x2ab_out.mp4" ]} true [] true [])) as ->
    by (vm_compute; reflexivity).
  cbn [fst snd fs cap_opened out_opened].
  repeat split. intros (_ & Hcap & _). discriminate.
Qed.

Lemma video_conf_not_validated_witness :
  predict_video Sample.model_predict Sample.write_raises Sample.writer_opens
    Sample.admin_token 0 (Sample.clip 2) (Some (Finite 1.5)) "/tmp/tmpk3v9x2ab" Sample.idle =
  predict_video_body Sample.model_predict Sample.write_raises Sample.writer_opens
    (Sample.clip 2) (Finite 1.5) "/tmp/tmpk3v9x2ab" Sample.idle.
Proof.
  apply (video_conf_not_validated Sample.model_predict Sample.write_raises
           Sample.writer_opens Sample.admin_token 0 (PStr "admin")).
  vm_compute. reflexivity.
Defined.

(** The request of that witness, run: with [conf] at 1.5 both frames are
    processed and the file is returned. *)
Example video_conf_out_of_range_runs :
  let out := predict_video Sample.model_predict Sample.write_raises Sample.writer_opens
               Sample.admin_token 0 (Sample.clip 2) (Some (Finite 1.5))
               "/tmp/tmpk3v9x2ab" Sample.idle in
  out.1 = Return (mk_FileResponse "/tmp/tmpk3v9x2ab_out.mp4" "video/mp4"
                    "traffic_analysis.mp4") ∧
  out_frames out.2 = [0; 1].
Proof. vm_compute. split; reflexivity. Qed.

(** The image endpoint declares the bounds, and a value outside them is
    answered with a 422 before the body runs. *)
Lemma image_conf_validated {Picture Array : Type}
    (model_predict : Picture → pyfloat → result (@Results Array))
    (jpeg_base64 : Array → result string)
    (credentials : token) (now : Z) (user : pyval)
    (file : @UploadFile Picture) (conf : pyfloat) :
  verify_token credentials now = Return user →
  float_ge conf 0 && float_le conf 1 = false →
  predict_image model_predict jpeg_base64 credentials now file (Some conf) =
  Raise (HTTPException 422 "Unprocessable Entity").
Proof.
  intros Htok Hout. unfold predict_image. rewrite Htok.
  cbn [mbind result_bind]. unfold query_param, conf_of_predict_image.
  cbn [default from_option id q_ge q_le]. by rewrite Hout.
Qed.

(** The 500-frame input, run: 301 frames out, the last of them frame 300
    counting from 0. *)
Example five_hundred_frames_in_301_out :
  let out := predict_video_body Sample.model_predict Sample.write_raises
               Sample.writer_opens (Sample.clip 500) (Finite 0.25)
               "/tmp/tmpk3v9x2ab" Sample.idle in
  length (out_frames out.2) = 301 ∧ last (out_frames out.2) = Some 300.
Proof. vm_compute. split; reflexivity. Qed.

(** ** Further properties of auth.py *)

Section TokenFacts.
Local Open Scope Z_scope.

Lemma first_failure_none (checks : list (option exn)) :
  first_failure checks = Return tt ↔ Forall (λ c, c = None) checks.
Proof.
  induction checks as [|[e|] checks IH]; cbn [first_failure].
  - split; [constructor|done].
  - split; [done|]. intros H. by apply Forall_cons in H as [? _].
  - rewrite IH. split; [by constructor|]. intros H. by apply Forall_cons in H as [_ ?].
Qed.

(** What [jwt_decode] can raise. *)
Lemma first_failure_raises (checks : list (option exn)) (e : exn) :
  first_failure checks = Raise e → Some e ∈ checks.
Proof.
  induction checks as [|[e'|] checks IH]; cbn [first_failure]; [done|..].
  - intros [= ->]. apply elem_of_cons. by left.
  - intros H. apply elem_of_cons. right. by apply IH.
Qed.

Lemma jwt_decode_raises (tok : token) (key : string) (algorithms : list string)
    (now : Z) (e : exn) :
  integer_time_claims tok →
  jwt_decode tok key algorithms now = Raise e →
  e = ExpiredSignatureError ∨ ∃ kind, e = PyJWTError kind.
Proof.
  unfold jwt_decode. destruct tok as [raw|alg payload signed_with].
  { intros _ [= <-]. right. eauto. }
  intros (Hiat & Hnbf & Hexp).
  destruct (bool_decide (alg ∈ algorithms)); cbn [negb]; [|intros [= <-]; right; eauto].
  destruct (bool_decide (signed_with = key)); cbn [negb]; [|intros [= <-]; right; eauto].
  destruct (validate_claims payload now) as [[]|e'] eqn:Hval; [done|].
  intros [= <-]. apply first_failure_raises in Hval.
  unfold validate_iat, validate_nbf, validate_exp, validate_aud, validate_sub,
    validate_jti in Hval.
  destruct Hiat as [Hiat|[iat Hiat]], Hnbf as [Hnbf|[nbf Hnbf]],
    Hexp as [Hexp|[exp Hexp]]; rewrite Hiat, Hnbf, Hexp in Hval;
    repeat (apply elem_of_cons in Hval as [Hval|Hval]);
    try (by apply elem_of_nil in Hval);
    repeat case_match; simplify_eq; eauto.
Qed.

(** What a successful [jwt_decode] tells about the token. *)
Lemma jwt_decode_returns (tok : token) (key : string) (algorithms : list string)
    (now : Z) (payload : gmap string pyval) :
  jwt_decode tok key algorithms now = Return payload →
  ∃ alg, tok = Jws alg payload key ∧ alg ∈ algorithms ∧
         validate_claims payload now = Return tt.
Proof.
  unfold jwt_decode. destruct tok as [raw|alg payload' signed_with]; [done|].
  destruct (bool_decide (alg ∈ algorithms)) eqn:Halg; cbn [negb]; [|done].
  destruct (bool_decide (signed_with = key)) eqn:Hkey; cbn [negb]; [|done].
  destruct (validate_claims payload' now) as [[]|e] eqn:Hval; [|done].
  intros [= <-]. apply bool_decide_eq_true in Halg, Hkey. subst. eauto.
Qed.

(** What passing the claim checks tells about the subject and the expiry. *)
Lemma validate_claims_passed (payload : gmap string pyval) (now : Z) :
  validate_claims payload now = Return tt →
  (payload !! "sub" = None ∨ ∃ s, payload !! "sub" = Some (PStr s)) ∧
  (∀ exp, payload !! "exp" = Some (PInt exp) → now < exp * 1000000).
Proof.
  intros Hval. apply first_failure_none in Hval.
  apply Forall_cons in Hval as [_ Hval]. apply Forall_cons in Hval as [_ Hval].
  apply Forall_cons in Hval as [Hexp Hval]. apply Forall_cons in Hval as [_ Hval].
  apply Forall_cons in Hval as [Hsub _].
  unfold validate_sub in Hsub. unfold validate_exp in Hexp. split.
  - destruct (payload !! "sub") as [[s| | |]|]; try done; eauto.
  - intros exp Hp. rewrite Hp in Hexp.
    destruct (exp * 1000000 <=? now) eqn:Hle; [done|]. by apply Z.leb_gt.
Qed.

(** X1.  Where the clock plus the time to live in use (the delta when it
    is given and not zero, fifteen minutes otherwise) is an instant a
    [datetime] can hold, the token for a lone subject is issued, its
    expiry is that instant cut down to a whole second, and from that
    second on verification answers "expired", before it the subject. *)
Theorem token_lifetime (u : string) (expires_delta : option Z) (issued tv : Z) :
  let ttl := match expires_delta with
             | Some d => if d =? 0 then timedelta_minutes 15 else d
             | None => timedelta_minutes 15
             end in
  datetime_in_range (issued + ttl) →
  ∃ tok exp,
    create_access_token {[ "sub" := PStr u ]} expires_delta issued = Return tok ∧
    issued + ttl - 1000000 < exp * 1000000 ≤ issued + ttl ∧
    verify_token tok tv =
      if exp * 1000000 <=? tv
      then Raise (HTTPException 401 "Token has expired! Login again.")
      else Return (PStr u).
Proof.
  intros ttl _.
  assert ((if timedelta_truthy expires_delta
           then issued + default 0 expires_delta
           else issued + timedelta_minutes 15) = issued + ttl) as Hexpire.
  { subst ttl. destruct expires_delta as [d|]; cbn; [|done].
    by destruct (d =? 0). }
  eexists _, ((issued + ttl) `div` 1000000).
  split; [by rewrite create_access_token_sub, Hexpire|].
  split; [|apply verify_token_sub_exp].
  pose proof (Z.mod_pos_bound (issued + ttl) 1000000 ltac:(lia)).
  pose proof (Z.div_mod (issued + ttl) 1000000 ltac:(lia)).
  lia.
Qed.

Lemma token_lifetime_witness :
  ∃ tok exp,
    create_access_token {[ "sub" := PStr "alice" ]} (Some 5000000) 1500000 = Return tok ∧
    1500000 + 5000000 - 1000000 < exp * 1000000 ≤ 1500000 + 5000000 ∧
    verify_token tok 6000000 =
      if exp * 1000000 <=? 6000000
      then Raise (HTTPException 401 "Token has expired! Login again.")
      else Return (PStr "alice").
Proof.
  apply (token_lifetime "alice" (Some 5000000) 1500000 6000000).
  unfold datetime_in_range, datetime_min, datetime_max. cbn. lia.
Defined.

(** X2.  A token that is not a JWS signed with the server's key under
    HS256 is answered with "Invalid token", whatever it claims and
    whenever it is shown. *)
Theorem forged_token_rejected (tok : token) (now : Z) :
  (∀ payload, tok ≠ Jws ALGORITHM payload SECRET_KEY) →
  verify_token tok now = Raise (HTTPException 401 "Invalid token").
Proof.
  intros Hforged. unfold verify_token, jwt_decode.
  destruct tok as [raw|alg payload signed_with]; [done|].
  destruct (decide (alg = ALGORITHM)) as [->|Halg].
  - rewrite bool_decide_eq_true_2 by set_solver. cbn [negb].
    rewrite bool_decide_eq_false_2; [done|].
    intros ->. by apply (Hforged payload).
  - rewrite bool_decide_eq_false_2; [done|].
    rewrite list_elem_of_singleton. done.
Qed.

Lemma forged_token_rejected_witness :
  verify_token (Jws "none" {[ "sub" := PStr "admin" ]} "") 0 =
  Raise (HTTPException 401 "Invalid token").
Proof. apply forged_token_rejected. intros payload. discriminate. Defined.

(** X3.  When verification returns, the token is a JWS signed with the
    server's key under HS256, what is returned is its subject, a string,
    and an expiry it carries lies in the future. *)
Theorem verified_token_is_genuine (tok : token) (now : Z) (v : pyval) :
  verify_token tok now = Return v →
  ∃ payload s,
    tok = Jws ALGORITHM payload SECRET_KEY ∧
    payload !! "sub" = Some (PStr s) ∧ v = PStr s ∧
    (∀ exp, payload !! "exp" = Some (PInt exp) → now < exp * 1000000).
Proof.
  unfold verify_token.
  destruct (jwt_decode tok SECRET_KEY [ALGORITHM] now) as [payload|e] eqn:Hdec.
  2:{ by destruct e. }
  destruct (jwt_decode_returns _ _ _ _ _ Hdec) as (alg & -> & Halg & Hval).
  apply list_elem_of_singleton in Halg as ->.
  destruct (validate_claims_passed _ _ Hval) as [[Hsub|[s Hsub]] Hexp];
    rewrite Hsub; cbn; [done|].
  intros [= <-]. by exists payload, s.
Qed.

Lemma verified_token_is_genuine_witness :
  ∃ payload s,
    Sample.admin_token = Jws ALGORITHM payload SECRET_KEY ∧
    payload !! "sub" = Some (PStr s) ∧ PStr "admin" = PStr s ∧
    (∀ exp, payload !! "exp" = Some (PInt exp) → 0 < exp * 1000000).
Proof.
  apply (verified_token_is_genuine Sample.admin_token 0 (PStr "admin")).
  vm_compute. reflexivity.
Defined.

(** X4.  For a token whose time claims (iat, nbf, exp) are integers where
    it has them, verification has four outcomes and no other: the
    subject, or a 401 that says the token has expired, is invalid, or
    lacks a username. *)
Theorem verify_token_outcomes (tok : token) (now : Z) :
  integer_time_claims tok →
  (∃ s, verify_token tok now = Return (PStr s)) ∨
  verify_token tok now = Raise (HTTPException 401 "Token has expired! Login again.") ∨
  verify_token tok now = Raise (HTTPException 401 "Invalid token") ∨
  verify_token tok now = Raise (HTTPException 401 "Token is missing username").
Proof.
  intros Hint. unfold verify_token.
  destruct (jwt_decode tok SECRET_KEY [ALGORITHM] now) as [payload|e] eqn:Hdec.
  - destruct (jwt_decode_returns _ _ _ _ _ Hdec) as (alg & _ & _ & Hval).
    destruct (validate_claims_passed _ _ Hval) as [[Hsub|[s Hsub]] _];
      rewrite Hsub; cbn; eauto.
  - destruct (jwt_decode_raises _ _ _ _ _ Hint Hdec) as [->|[kind ->]]; auto.
Qed.

(** Outside that: a token the server's key has signed whose expiry is
    [null] makes [int()] raise inside the decoder, and what leaves
    [verify_token] is that [TypeError], not a 401. *)
Example null_expiry_is_not_a_401 :
  verify_token
    (Jws ALGORITHM (<["exp" := PNone]> {[ "sub" := PStr "admin" ]}) SECRET_KEY) 0 =
  Raise int_TypeError.
Proof. vm_compute. reflexivity. Qed.

Lemma verify_token_outcomes_witness :
  (∃ s, verify_token Sample.admin_token 1800000000 = Return (PStr s)) ∨
  verify_token Sample.admin_token 1800000000 =
    Raise (HTTPException 401 "Token has expired! Login again.") ∨
  verify_token Sample.admin_token 1800000000 = Raise (HTTPException 401 "Invalid token") ∨
  verify_token Sample.admin_token 1800000000 =
    Raise (HTTPException 401 "Token is missing username").
Proof.
  apply (verify_token_outcomes Sample.admin_token 1800000000).
  cbn [integer_time_claims Sample.admin_token]. unfold integer_or_absent.
  split; [by left|]. split; [by left|]. right. by exists 1800.
Defined.

(** X5.  Claims the caller adds beside the subject come back from the
    decoder as they went in.  For a [data] of string values with no iat,
    nbf or aud among its keys and an expiry that is an instant a
    [datetime] can hold, the token is issued and, until it expires,
    decodes to [data] with the expiry set; an "exp" that [data] brought
    along is replaced by the one computed from the clock. *)
Theorem claims_round_trip (data : gmap string pyval) (expires_delta : option Z)
    (issued tv : Z) :
  map_Forall (λ _ v, ∃ s, v = PStr s) data →
  data !! "iat" = None → data !! "nbf" = None → data !! "aud" = None →
  datetime_in_range (if timedelta_truthy expires_delta
                     then issued + default 0 expires_delta
                     else issued + timedelta_minutes 15) →
  let exp := (if timedelta_truthy expires_delta
              then issued + default 0 expires_delta
              else issued + timedelta_minutes 15) `div` 1000000 in
  tv < exp * 1000000 →
  ∃ tok,
    create_access_token data expires_delta issued = Return tok ∧
    jwt_decode tok SECRET_KEY [ALGORITHM] tv = Return (<["exp" := PInt exp]> data) ∧
    verify_token tok tv =
      match data !! "sub" with
      | Some sub => Return sub
      | None => Raise (HTTPException 401 "Token is missing username")
      end.
Proof.
  intros Hstr Hiat Hnbf Haud _ exp Htv.
  assert (create_access_token data expires_delta issued =
          Return (Jws ALGORITHM (<["exp" := PInt exp]> data) SECRET_KEY)) as Hcreate.
  { unfold create_access_token, jwt_encode.
    rewrite alter_insert_eq. cbn [to_int_date]. fold exp.
    rewrite (alter_id to_int_date _ "iat")
      by (intros x; rewrite lookup_insert_ne by done; congruence).
    rewrite (alter_id to_int_date _ "nbf")
      by (intros x; rewrite lookup_insert_ne by done; congruence).
    rewrite bool_decide_eq_true_2; [done|].
    apply map_Forall_insert_2; [done|].
    eapply map_Forall_impl; [exact Hstr|]. by intros k v [s ->]. }
  assert (jwt_decode (Jws ALGORITHM (<["exp" := PInt exp]> data) SECRET_KEY)
            SECRET_KEY [ALGORITHM] tv = Return (<["exp" := PInt exp]> data)) as Hdec.
  { unfold jwt_decode.
    rewrite bool_decide_eq_true_2 by set_solver.
    rewrite (bool_decide_eq_true_2 (SECRET_KEY = SECRET_KEY)) by done.
    cbn [negb].
    assert (validate_claims (<["exp" := PInt exp]> data) tv = Return tt) as ->; [|done].
    apply first_failure_none.
    unfold validate_iat, validate_nbf, validate_exp, validate_aud,
      validate_sub, validate_jti.
    rewrite lookup_insert_eq, !lookup_insert_ne by done.
    rewrite Hiat, Hnbf, Haud. rewrite (proj2 (Z.leb_gt _ _) Htv).
    repeat constructor.
    - destruct (data !! "sub") as [v|] eqn:Hv; [|done].
      by destruct (Hstr _ _ Hv) as [s ->].
    - destruct (data !! "jti") as [v|] eqn:Hv; [|done].
      by destruct (Hstr _ _ Hv) as [s ->]. }
  eexists. split; [exact Hcreate|]. split; [exact Hdec|].
  unfold verify_token. rewrite Hdec. rewrite lookup_insert_ne by done.
  destruct (data !! "sub") as [v|] eqn:Hv; [|done].
  destruct (Hstr _ _ Hv) as [s ->]. done.
Qed.

Lemma claims_round_trip_witness :
  ∃ tok,
    create_access_token {[ "sub" := PStr "alice"; "role" := PStr "officer" ]}
      (Some 5000000) 1500000 = Return tok ∧
    verify_token tok 2000000 = Return (PStr "alice").
Proof.
  destruct (claims_round_trip {[ "sub" := PStr "alice"; "role" := PStr "officer" ]}
              (Some 5000000) 1500000 2000000) as (tok & Hcreate & _ & Hverify).
  - intros k v. rewrite lookup_insert_Some, lookup_singleton_Some.
    intros [[_ <-]|[_ [_ <-]]]; eauto.
  - reflexivity.
  - reflexivity.
  - reflexivity.
  - unfold datetime_in_range, datetime_min, datetime_max. cbn. lia.
  - vm_compute. reflexivity.
  - exists tok. split; [exact Hcreate|]. rewrite Hverify. reflexivity.
Defined.

End TokenFacts.

(** ** Further properties of the user table and the auth endpoints *)

Section AccountFacts.
Local Open Scope Z_scope.

(** What [authenticate_user] answers, by cases on the table. *)
Lemma authenticate_user_mismatch (db : gmap string db_user) (user : UserAuth) :
  (∀ r, db !! ua_username user = Some r → password r ≠ ua_password user) →
  authenticate_user user db = (Return None, db).
Proof.
  intros Hbad. unfold authenticate_user, mbind, M_bind, get. cbn.
  destruct (db !! ua_username user) as [r|] eqn:Hr; [|done].
  by rewrite bool_decide_eq_false_2 by (by apply Hbad).
Qed.

(** X6.  A login that names no record, or names one with another
    password, gets the same 401 either way, and the table stays as it
    was. *)
Theorem login_failure_uniform (db : gmap string db_user) (user : UserAuth) (now : Z) :
  (∀ r, db !! ua_username user = Some r → password r ≠ ua_password user) →
  login user now db =
    (Raise (HTTPException 401 "Incorrect username or password"), db).
Proof.
  intros Hbad. unfold login, mbind, M_bind.
  by rewrite authenticate_user_mismatch.
Qed.

Lemma login_failure_uniform_witness :
  login (mk_UserAuth "admin" "letmein") 0 fake_users_db =
    (Raise (HTTPException 401 "Incorrect username or password"), fake_users_db) ∧
  login (mk_UserAuth "nobody" "secretpassword") 0 fake_users_db =
    (Raise (HTTPException 401 "Incorrect username or password"), fake_users_db).
Proof.
  split; apply login_failure_uniform; intros r; cbn [ua_username ua_password].
  - unfold fake_users_db. rewrite lookup_singleton_eq. intros [= <-]. discriminate.
  - unfold fake_users_db. rewrite lookup_singleton_ne; done.
Defined.

(** X7.  [login] never writes to the table, and it returns a token exactly
    when the table holds a record under the name with the password sent;
    the [disabled] field of the record is not looked at. *)
Theorem login_succeeds_iff (db : gmap string db_user) (user : UserAuth) (now : Z) :
  (login user now db).2 = db ∧
  ((∃ resp, (login user now db).1 = Return resp) ↔
   ∃ r, db !! ua_username user = Some r ∧ password r = ua_password user).
Proof.
  destruct (db !! ua_username user) as [r|] eqn:Hr.
  - destruct (decide (password r = ua_password user)) as [Hpw|Hpw].
    + unfold login, mbind, M_bind.
      rewrite (authenticate_user_match db user r Hr Hpw).
      unfold lift. rewrite create_access_token_sub. cbn [fst snd].
      split; [done|]. split; eauto.
    + unfold login, mbind, M_bind.
      rewrite authenticate_user_mismatch by (intros r'; rewrite Hr; congruence).
      cbn [fst snd]. split; [done|]. split; [by intros [? ?]|].
      intros (r' & Hr' & Hpw'). congruence.
  - unfold login, mbind, M_bind.
    rewrite authenticate_user_mismatch by (intros r'; rewrite Hr; congruence).
    cbn [fst snd]. split; [done|]. split; [by intros [? ?]|].
    intros (r' & Hr' & _). congruence.
Qed.

(** X8.  Registering a free name stores one record, the name and password
    as sent and [disabled] false; every other name keeps what it had and
    the table is one record larger. *)
Theorem register_adds_one_record (db : gmap string db_user) (user : UserAuth) :
  db !! ua_username user = None →
  let db' := (register_new_user user db).2 in
  db' !! ua_username user =
    Some (mk_db_user (ua_username user) (ua_password user) false) ∧
  (∀ k, k ≠ ua_username user → db' !! k = db !! k) ∧
  size db' = S (size db).
Proof.
  intros Hfree db'. subst db'. rewrite register_new_user_fresh by done. cbn [snd].
  split; [apply lookup_insert_eq|]. split.
  - intros k Hk. by apply lookup_insert_ne.
  - by apply map_size_insert_None.
Qed.

Lemma register_adds_one_record_witness :
  size (register_new_user Sample.alice fake_users_db).2 = 2%nat.
Proof.
  destruct (register_adds_one_record fake_users_db Sample.alice) as (_ & _ & Hsize).
  - vm_compute. reflexivity.
  - rewrite Hsize. vm_compute. reflexivity.
Defined.

(** A request leaves the records that are there as they are. *)
Lemma table_after_keeps (db : gmap string db_user) (rq : request) (k : string) (r : db_user) :
  db !! k = Some r → table_after db rq !! k = Some r.
Proof.
  intros Hk. destruct rq as [user|user]; cbn [table_after].
  - destruct (db !! ua_username user) as [x|] eqn:Hx.
    + by rewrite register_new_user_taken by (by rewrite Hx).
    + rewrite register_new_user_fresh by done. cbn [snd].
      rewrite lookup_insert_ne; [done|]. intros <-. congruence.
  - by rewrite authenticate_user_reads.
Qed.

(** X9.  A record, once in the table, is there for good and unchanged:
    no run of register and authenticate calls drops it, overwrites it or
    changes its password. *)
Theorem records_are_permanent (db : gmap string db_user) (rs : list request)
    (k : string) (r : db_user) :
  db !! k = Some r → foldl table_after db rs !! k = Some r.
Proof.
  revert db. induction rs as [|rq rs IH]; intros db Hk; [done|].
  cbn [foldl]. by apply IH, table_after_keeps.
Qed.

Lemma records_are_permanent_witness :
  foldl table_after fake_users_db
    [Register (mk_UserAuth "admin" "hijacked"); Authenticate Sample.alice;
     Register Sample.alice] !! "admin" =
  Some (mk_db_user "admin" "secretpassword" false).
Proof. apply records_are_permanent. vm_compute. reflexivity. Defined.

(** X10.  Whoever has registered can log in ever after: following the
    registration of a free name by any run of further requests, a login
    with the name and password registered returns a token, and that token
    verifies to the name for at least 1799 seconds.  Times are in
    microseconds. *)
Theorem registered_user_can_always_login (db : gmap string db_user)
    (user : UserAuth) (rs : list request) (now tv : Z) :
  db !! ua_username user = None →
  tv < now + 1799 * 1000000 →
  let later := foldl table_after (register_new_user user db).2 rs in
  ∃ resp, login user now later = (Return resp, later) ∧
          verify_token (access_token resp) tv = Return (PStr (ua_username user)).
Proof.
  intros Hfree Htv later.
  assert (later !! ua_username user =
          Some (mk_db_user (ua_username user) (ua_password user) false)) as Hrec.
  { subst later. rewrite register_new_user_fresh by done. cbn [snd].
    generalize (lookup_insert_eq db (ua_username user)
                  (mk_db_user (ua_username user) (ua_password user) false)).
    generalize (<[ua_username user :=
                   mk_db_user (ua_username user) (ua_password user) false]> db).
    induction rs as [|rq rs IH]; intros db1 Hdb1; [done|].
    cbn [foldl]. by apply IH, table_after_keeps. }
  destruct (endpoint_token_verifies (ua_username user) now tv Htv) as (tok & Hc & Hv).
  exists (mk_TokenResponse tok "Bearer" (ACCESS_TOKEN_EXPIRE_MINUTES * 60)).
  split; [|done]. unfold login, mbind, M_bind.
  rewrite (authenticate_user_match later user _ Hrec eq_refl).
  unfold lift. by rewrite Hc.
Qed.

Lemma registered_user_can_always_login_witness :
  ∃ resp,
    (login Sample.alice 5000000
       (foldl table_after (register_new_user Sample.alice fake_users_db).2
          [Register (mk_UserAuth "alice" "other"); Register (mk_UserAuth "bob" "b")])).1
      = Return resp ∧
    verify_token (access_token resp) 6000000 = Return (PStr "alice").
Proof.
  destruct (registered_user_can_always_login fake_users_db Sample.alice
              [Register (mk_UserAuth "alice" "other"); Register (mk_UserAuth "bob" "b")]
              5000000 6000000) as (resp & Hlogin & Hverify).
  - vm_compute. reflexivity.
  - lia.
  - exists resp. split; [by rewrite Hlogin|exact Hverify].
Defined.

(** X11.  What a successful register or login returns: a token of type
    "Bearer" said to expire in 1800 seconds, signed by the server for the
    name sent, whose real expiry is the clock plus those 1800 seconds cut
    down to a whole second. *)
Theorem token_response_shape (db db' : gmap string db_user) (user : UserAuth)
    (now : Z) (resp : TokenResponse) :
  register user now db = (Return resp, db') ∨ login user now db = (Return resp, db') →
  token_type resp = "Bearer" ∧ expires_in resp = 1800 ∧
  ∃ exp,
    access_token resp =
      Jws ALGORITHM (<["exp" := PInt exp]> {[ "sub" := PStr (ua_username user) ]})
        SECRET_KEY ∧
    now + (expires_in resp - 1) * 1000000 < exp * 1000000
      ≤ now + expires_in resp * 1000000.
Proof.
  assert (∀ resp', lift (S := gmap string db_user)
            (create_access_token {[ "sub" := PStr (ua_username user) ]}
               (Some (timedelta_minutes ACCESS_TOKEN_EXPIRE_MINUTES)) now) db' =
          (Return (access_token resp'), db') →
          ∃ exp, access_token resp' =
            Jws ALGORITHM (<["exp" := PInt exp]> {[ "sub" := PStr (ua_username user) ]})
              SECRET_KEY ∧
            now + (1800 - 1) * 1000000 < exp * 1000000 ≤ now + 1800 * 1000000) as Htok.
  { intros resp'. unfold lift. rewrite create_access_token_sub.
    intros [= <-]. eexists. split; [done|].
    cbn. unfold timedelta_minutes, ACCESS_TOKEN_EXPIRE_MINUTES.
    pose proof (Z.mod_pos_bound (now + 30 * 60 * 1000000) 1000000 ltac:(lia)).
    pose proof (Z.div_mod (now + 30 * 60 * 1000000) 1000000 ltac:(lia)).
    lia. }
  intros [Hreg|Hlog].
  - unfold register, mbind, M_bind in Hreg.
    destruct (register_new_user user db) as [[u|e] db1]; [|done].
    unfold lift in Hreg. rewrite create_access_token_sub in Hreg.
    injection Hreg as <- <-. cbn [token_type expires_in access_token].
    split; [done|]. split; [done|]. apply (Htok (mk_TokenResponse _ "" 0)).
    unfold lift. by rewrite create_access_token_sub.
  - unfold login, mbind, M_bind in Hlog.
    destruct (authenticate_user user db) as [[[r|]|e] db1]; [|done..].
    unfold lift in Hlog. rewrite create_access_token_sub in Hlog.
    injection Hlog as <- <-. cbn [token_type expires_in access_token].
    split; [done|]. split; [done|]. apply (Htok (mk_TokenResponse _ "" 0)).
    unfold lift. by rewrite create_access_token_sub.
Qed.

Lemma token_response_shape_witness :
  ∃ resp db',
    login (mk_UserAuth "admin" "secretpassword") 1500000 fake_users_db =
      (Return resp, db') ∧
    token_type resp = "Bearer" ∧ expires_in resp = 1800.
Proof.
  destruct (login (mk_UserAuth "admin" "secretpassword") 1500000 fake_users_db)
    as [[resp|e] db'] eqn:Hlogin.
  - exists resp, db'. split; [reflexivity|].
    destruct (token_response_shape fake_users_db db'
                (mk_UserAuth "admin" "secretpassword") 1500000 resp
                (or_intror Hlogin)) as (Htype & Hexpires & _).
    split; [exact Htype|exact Hexpires].
  - vm_compute in Hlogin. discriminate Hlogin.
Defined.

End AccountFacts.

(** ** Further properties of the image endpoint *)

Section MoreImageFacts.
Context {Picture Array : Type}.
Variable model_predict : Picture → pyfloat → result (@Results Array).
Variable jpeg_base64 : Array → result string.

(** How many times [x] is among [labels]. *)
Local Abbreviation occurrences x labels := (length (filter (λ y : string, y = x) labels)).

(** Counting into a table that already holds counts. *)
Lemma Counter_from (counts : gmap string nat) (labels : list string) (x : string) :
  foldl (λ counts x, <[x := S (default 0 (counts !! x))]> counts) counts labels !! x =
  if decide (occurrences x labels = 0) then counts !! x
  else Some (default 0 (counts !! x) + occurrences x labels).
Proof.
  revert counts. induction labels as [|y labels IH]; intros counts; [done|].
  cbn [foldl]. rewrite IH. destruct (decide (y = x)) as [->|Hne].
  - rewrite filter_cons_True by done. cbn [length].
    rewrite lookup_insert_eq. cbn [default from_option id].
    destruct (decide (S (occurrences x labels) = 0)) as [|_]; [lia|].
    destruct (decide (occurrences x labels = 0)) as [Hz|_]; [rewrite Hz|];
      f_equal; lia.
  - rewrite filter_cons_False by done. by rewrite lookup_insert_ne.
Qed.

(** X12.  The breakdown of an image response is the tally of the detected
    classes by name: a name that was detected is listed with the number of
    its detections, and a name that was not is not listed at all. *)
Theorem breakdown_counts_labels
    (file : @UploadFile Picture) (conf : pyfloat) (image : Picture)
    (res : @Results Array) (img_str : string) (labels : list string) :
  as_image file = Return image →
  model_predict image conf = Return res →
  jpeg_base64 (plot res) = Return img_str →
  Forall2 (λ c label, names res !! c = Some label) (boxes_cls res) labels →
  ∃ r, predict_image_body model_predict jpeg_base64 file conf = Return r ∧
       annotated_image r = img_str ∧
       ∀ x, breakdown r !! x =
            if decide (occurrences x labels = 0) then None
            else Some (occurrences x labels).
Proof.
  intros Himg Hres Hjpg Hnames. apply mapM_Some_2 in Hnames.
  eexists. unfold predict_image_body, class_names.
  rewrite Himg. cbn [mbind result_bind]. rewrite Hres. cbn [mbind result_bind].
  rewrite Hjpg. cbn [mbind result_bind]. rewrite Hnames.
  cbn [mbind result_bind mret result_ret].
  split; [reflexivity|]. cbn [breakdown annotated_image]. split; [done|].
  intros x. unfold Counter. rewrite Counter_from, lookup_empty. done.
Qed.

(** X13.  Nothing but a 500 comes out of the body of the image endpoint:
    whatever fails in it (opening the image, the model, the JPEG encoding,
    a class id with no name), the caller gets a 500 with the text of that
    failure. *)
Theorem image_failures_are_500 (file : @UploadFile Picture) (conf : pyfloat) (e : exn) :
  predict_image_body model_predict jpeg_base64 file conf = Raise e →
  ∃ cause, e = HTTPException 500 (str_exn cause) ∧
    (as_image file = Raise cause ∨
     ∃ image, as_image file = Return image ∧
       (model_predict image conf = Raise cause ∨
        ∃ res, model_predict image conf = Return res ∧
          (jpeg_base64 (plot res) = Raise cause ∨
           class_names (names res) (boxes_cls res) = Raise cause))).
Proof.
  unfold predict_image_body.
  destruct (as_image file) as [image|e1] eqn:Himg; cbn [mbind result_bind].
  2:{ intros [= <-]. exists e1. eauto. }
  destruct (model_predict image conf) as [res|e2] eqn:Hres; cbn [mbind result_bind].
  2:{ intros [= <-]. exists e2. split; [done|]. right. exists image. eauto. }
  destruct (jpeg_base64 (plot res)) as [img_str|e3] eqn:Hjpg; cbn [mbind result_bind].
  2:{ intros [= <-]. exists e3. split; [done|]. right. exists image.
      split; [done|]. right. exists res. eauto. }
  destruct (class_names (names res) (boxes_cls res)) as [labels|e4] eqn:Hlab;
    cbn [mbind result_bind mret result_ret]; [done|].
  intros [= <-]. exists e4. split; [done|]. right. exists image.
  split; [done|]. right. exists res. eauto.
Qed.

End MoreImageFacts.

(** ** Further properties of the video endpoint *)

(** A stem with no dot in it: the suffix is the one place ".mp4" occurs. *)
Lemma str_replace_plain_stem (stem : string) :
  "."%char ∉ String.list_ascii_of_string stem →
  str_replace ".mp4" "_out.mp4" (stem +:+ ".mp4") = stem +:+ "_out.mp4".
Proof.
  unfold str_replace. induction stem as [|c stem IH]; [done|].
  cbn [String.list_ascii_of_string]. rewrite not_elem_of_cons. intros [Hc Hstem].
  change (String c stem +:+ ".mp4") with (String c (stem +:+ ".mp4")).
  change (String c stem +:+ "_out.mp4") with (String c (stem +:+ "_out.mp4")).
  cbn [str_replace_from String.prefix].
  destruct (Ascii.ascii_dec "." c) as [Heq|_]; [by destruct Hc|].
  by rewrite IH.
Qed.

Lemma plain_stem_paths_differ (stem : string) :
  stem +:+ "_out.mp4" ≠ stem +:+ ".mp4".
Proof. intros H. by apply (inj (String.app stem)) in H. Qed.

Section MoreVideoFacts.
Context {Picture Array : Type}.
Variable model_predict : Picture → pyfloat → result (@Results Array).
Variable write_raises : Array → option exn.
Variable writer_opens : Z → Z → Z → bool.

Local Abbreviation frame_loop := (frame_loop model_predict write_raises).
Local Abbreviation predict_video_body := (predict_video_body model_predict write_raises writer_opens).
Local Abbreviation predict_video := (predict_video model_predict write_raises writer_opens).
Local Abbreviation process_frames := (process_frames model_predict write_raises).
Local Abbreviation open_capture_and_writer := (open_capture_and_writer writer_opens).
Local Abbreviation annotates := (annotates model_predict).
Local Abbreviation processes := (processes model_predict write_raises).
Local Abbreviation stops_at := (stops_at model_predict write_raises).

(** The disk after the capture and the writer are made. *)
Lemma open_capture_and_writer_fs (file : UploadFile) (output_path : string)
    (w : @world Picture Array) :
  fs (open_capture_and_writer file output_path w).2 =
  if writer_opens (cap_get (as_video file) frames_per_second)
                  (cap_get (as_video file) frame_width)
                  (cap_get (as_video file) frame_height)
  then {[output_path]} ∪ fs w else fs w.
Proof.
  unfold Main.open_capture_and_writer, mbind, M_bind, modify. cbn [snd].
  unfold VideoWriter, VideoCapture.
  destruct (writer_opens _ _ _), (as_video file); done.
Qed.

(** A loop that meets a frame it cannot process after [pre]: the
    exception comes out, with the drawings of [pre] written. *)
Lemma frame_loop_stops (conf : pyfloat) (pre : list Picture) (frame : Picture)
    (post : list Picture) (e : exn) (k : nat) (w : world) :
  k + length pre ≤ 300 →
  Forall (processes conf) pre →
  stops_at conf frame e →
  ∃ anns, (frame_loop conf (pre ++ frame :: post) k w).1 = Raise e ∧
          Forall2 (annotates conf) pre anns ∧
          out_frames (frame_loop conf (pre ++ frame :: post) k w).2 =
            out_frames w ++ anns.
Proof.
  revert k w. induction pre as [|f pre IH]; intros k w Hk Hpre Hstop.
  - exists []. cbn [app Main.frame_loop].
    unfold mbind, M_bind, modify, lift, out_write.
    destruct Hstop as [->|(results & -> & ->)]; cbn; rewrite app_nil_r; by repeat split.
  - apply Forall_cons in Hpre as [(results & Hres & Hwr) Hpre].
    cbn [app length] in *.
    rewrite (frame_loop_step _ _ _ _ _ _ _ _ Hres Hwr).
    rewrite (proj2 (Nat.ltb_ge _ _)) by lia.
    destruct (IH (k + 1)%nat (written (pre ++ frame :: post) (plot results) w))
      as (anns & Hraise & Hanns & Hout); [lia|done|done|].
    exists (plot results :: anns). split; [done|].
    split; [constructor; [by exists results|done]|].
    rewrite Hout. cbn. by rewrite <-app_assoc.
Qed.

(** The run of the two middle stages, from the world with the upload
    saved. *)
Lemma middle_stages (file : UploadFile) (conf : pyfloat) (input_path output_path : string)
    (w : @world Picture Array) :
  ∃ w1, (open_capture_and_writer file output_path;; process_frames conf)
          (create_file input_path w) = process_frames conf w1 ∧
        out_frames w1 = [] ∧
        cap_frames w1 = match as_video file with
                        | Some v => video_frames v
                        | None => []
                        end ∧
        cap_opened w1 = bool_decide (is_Some (as_video file)) ∧
        fs w1 = if writer_opens (cap_get (as_video file) frames_per_second)
                     (cap_get (as_video file) frame_width)
                     (cap_get (as_video file) frame_height)
                then {[output_path]} ∪ ({[input_path]} ∪ fs w)
                else {[input_path]} ∪ fs w.
Proof.
  destruct (open_capture_and_writer_spec writer_opens file output_path
              (create_file input_path w)) as (w1 & Hopen & Hout & Hframes & Hopened).
  exists w1. split; [unfold mbind, M_bind; by rewrite Hopen|].
  repeat split; [done..|].
  pose proof (open_capture_and_writer_fs file output_path (create_file input_path w)) as Hfs.
  by rewrite Hopen in Hfs.
Qed.

(** X14.  A request that is turned away at the door runs nothing.  When
    the token does not verify, both prediction endpoints answer with the
    error of the verification, whatever the file and [conf] are, and the
    video endpoint leaves the world as it found it; so does a video
    request with a good token whose content type does not contain
    "video", which gets the 400. *)
Theorem refused_requests_touch_nothing
    (jpeg_base64 : Array → result string)
    (credentials : token) (now : Z) (file : UploadFile)
    (conf : option pyfloat) (tmp_stem : string) (w : world) :
  (∀ e, verify_token credentials now = Raise e →
        predict_image model_predict jpeg_base64 credentials now file conf = Raise e ∧
        predict_video credentials now file conf tmp_stem w = (Raise e, w)) ∧
  (∀ user ct, verify_token credentials now = Return user →
        content_type file = Some ct → str_in "video" ct = false →
        predict_video credentials now file conf tmp_stem w =
          (Raise (HTTPException 400 "File must be a video."), w)).
Proof.
  split.
  - intros e He. unfold predict_image, Main.predict_video, mbind, M_bind, lift.
    rewrite He. done.
  - intros user ct Hu Hct Hvideo.
    unfold Main.predict_video, mbind, M_bind, lift. rewrite Hu.
    unfold query_param, conf_of_predict_video. cbn [q_ge q_le andb].
    unfold Main.predict_video_body. by rewrite Hct, Hvideo.
Qed.

(** X16.  For an accepted upload the capture cannot open, the handler
    itself raises nothing: the loop is never entered, the model is never
    asked, the writer is handed nothing, the saved input is removed, and
    what is returned is the response for the output path.  When the writer
    has not opened either (the capture reports 0 for the width, the height
    and the rate) and nothing was at the output path, that path names no
    file, so that sending the response fails: the caller gets a server
    error, not a video. *)
Theorem undecodable_upload_names_no_file (file : UploadFile) (conf : pyfloat)
    (tmp_stem ct : string) (w : world) :
  content_type file = Some ct → str_in "video" ct = true →
  as_video file = None →
  let input_path := tmp_stem +:+ ".mp4" in
  let output_path := str_replace ".mp4" "_out.mp4" input_path in
  let resp := mk_FileResponse output_path "video/mp4" "traffic_analysis.mp4" in
  (predict_video_body file conf tmp_stem w).1 = Return resp ∧
  out_frames (predict_video_body file conf tmp_stem w).2 = [] ∧
  (input_path ∉ fs (predict_video_body file conf tmp_stem w).2) ∧
  (writer_opens 0%Z 0%Z 0%Z = false → output_path ∉ fs w →
   send_FileResponse resp (predict_video_body file conf tmp_stem w).2 =
     Raise (PyException ("File at path " +:+ output_path +:+ " does not exist."))).
Proof.
  intros Hct Hvideo Hnone input_path output_path resp.
  rewrite (predict_video_body_accepted _ _ _ _ _ _ _ _ Hct Hvideo).
  fold input_path. fold output_path.
  destruct (middle_stages file conf input_path output_path w)
    as (w1 & -> & Hout & _ & Hopened & Hfs1).
  rewrite Hnone in Hopened, Hfs1. cbn [cap_get] in Hfs1.
  rewrite bool_decide_eq_false_2 in Hopened by (by intros [? ?]).
  unfold Main.process_frames, mbind, M_bind, get. rewrite Hopened. cbn [fst snd mret M_ret].
  destruct (remove_if_exists_spec input_path (out_release (cap_release w1)))
    as (w' & -> & Hgone & Hkeep & _ & _ & Hsame). cbn [snd].
  rewrite Hsame. cbn [out_release cap_release out_frames]. rewrite Hout.
  split; [done|]. split; [done|]. split; [done|].
  intros Hshut Hfree. rewrite Hshut in Hfs1.
  unfold send_FileResponse. cbn [path].
  rewrite bool_decide_eq_false_2; [done|]. intros Hthere.
  destruct (decide (output_path = input_path)) as [Heq|Hne].
  - apply Hgone. by rewrite <-Heq.
  - apply (Hkeep _ Hne) in Hthere. cbn [out_release cap_release fs] in Hthere.
    rewrite Hfs1, elem_of_union, elem_of_singleton in Hthere.
    by destruct Hthere.
Qed.

(** X17.  A video of at most 301 frames on which every frame goes through
    is processed whole: the caller gets the response, and the writer has
    been handed the drawing of every frame, in order. *)
Theorem short_video_written_whole (file : UploadFile) (conf : pyfloat)
    (tmp_stem ct : string) (v : Video) (w : world) :
  content_type file = Some ct → str_in "video" ct = true →
  as_video file = Some v →
  length (video_frames v) ≤ 301 →
  Forall (processes conf) (video_frames v) →
  (∃ resp, (predict_video_body file conf tmp_stem w).1 = Return resp) ∧
  Forall2 (annotates conf) (video_frames v)
    (out_frames (predict_video_body file conf tmp_stem w).2).
Proof.
  intros Hct Hvideo Hv Hlen Hall.
  rewrite (predict_video_body_accepted _ _ _ _ _ _ _ _ Hct Hvideo).
  set (input_path := tmp_stem +:+ ".mp4").
  set (output_path := str_replace ".mp4" "_out.mp4" input_path).
  destruct (middle_stages file conf input_path output_path w)
    as (w1 & -> & Hout1 & Hframes1 & Hopened1 & _).
  rewrite Hv in Hframes1, Hopened1.
  rewrite bool_decide_eq_true_2 in Hopened1 by done.
  destruct (process_frames_prefix model_predict write_raises conf w1) as
    (n & anns & Hanns & Hout & _ & _ & _ & Hret).
  pose proof (process_frames_returns model_predict write_raises conf w1) as Hreturns.
  rewrite Hframes1 in Hanns, Hret, Hreturns.
  rewrite take_ge in Hreturns by lia. specialize (Hreturns Hall).
  rewrite Hopened1 in Hret. specialize (Hret Hreturns).
  rewrite Hout1 in Hout. cbn [app] in Hout.
  rewrite Hret, take_ge in Hanns by lia.
  destruct (process_frames conf w1) as [[[]|e] w2]; cbn [fst snd] in *; [|done].
  destruct (remove_if_exists_spec input_path (out_release (cap_release w2)))
    as (w' & -> & _ & _ & _ & _ & Hsame). cbn [snd]. rewrite Hsame.
  cbn [out_release cap_release out_frames]. rewrite Hout. eauto.
Qed.

(** X18.  When the frames before some frame go through and that frame
    does not (the model raises on it, or the writer on its drawing), and
    it is one of the first 301, the request ends in a 500 with the text of
    that exception, and the writer has been handed the drawings of the
    frames before it and no more. *)
Theorem failure_keeps_frames_before (file : UploadFile) (conf : pyfloat)
    (tmp_stem ct : string) (v : Video) (w : world)
    (pre : list Picture) (frame : Picture) (post : list Picture) (e : exn) :
  content_type file = Some ct → str_in "video" ct = true →
  as_video file = Some v →
  video_frames v = pre ++ frame :: post →
  length pre ≤ 300 →
  Forall (processes conf) pre →
  stops_at conf frame e →
  (predict_video_body file conf tmp_stem w).1 = Raise (HTTPException 500 (str_exn e)) ∧
  Forall2 (annotates conf) pre
    (out_frames (predict_video_body file conf tmp_stem w).2).
Proof.
  intros Hct Hvideo Hv Hsplit Hlen Hpre Hstop.
  rewrite (predict_video_body_accepted _ _ _ _ _ _ _ _ Hct Hvideo).
  set (input_path := tmp_stem +:+ ".mp4").
  set (output_path := str_replace ".mp4" "_out.mp4" input_path).
  destruct (middle_stages file conf input_path output_path w)
    as (w1 & -> & Hout1 & Hframes1 & Hopened1 & _).
  rewrite Hv in Hframes1, Hopened1.
  rewrite bool_decide_eq_true_2 in Hopened1 by done.
  unfold Main.process_frames, mbind, M_bind, get. rewrite Hopened1, Hframes1, Hsplit.
  destruct (frame_loop_stops conf pre frame post e 0 w1) as (anns & Hraise & Hanns & Hout);
    [lia|done|done|].
  rewrite Hout1 in Hout. cbn [app] in Hout.
  destruct (frame_loop conf (pre ++ frame :: post) 0 w1) as [r w2].
  cbn [fst snd] in *. subst r.
  destruct (remove_if_exists_spec input_path w2) as (w' & -> & _ & _ & _ & _ & Hsame).
  cbn [snd]. rewrite Hsame, Hout. done.
Qed.

(** X19.  The endpoint touches two paths and no other: whatever the
    outcome, a path that is neither the saved input nor the output is on
    the disk afterwards exactly if it was before. *)
Theorem other_files_untouched (file : UploadFile) (conf : pyfloat)
    (tmp_stem : string) (w : world) (q : string) :
  let input_path := tmp_stem +:+ ".mp4" in
  let output_path := str_replace ".mp4" "_out.mp4" input_path in
  q ≠ input_path → q ≠ output_path →
  q ∈ fs (predict_video_body file conf tmp_stem w).2 ↔ q ∈ fs w.
Proof.
  intros input_path output_path Hin Hout.
  destruct (content_type file) as [ct|] eqn:Hct.
  2:{ unfold Main.predict_video_body. by rewrite Hct. }
  destruct (str_in "video" ct) eqn:Hvideo.
  2:{ unfold Main.predict_video_body. by rewrite Hct, Hvideo. }
  rewrite (predict_video_body_accepted _ _ _ _ _ _ _ _ Hct Hvideo).
  fold input_path. fold output_path.
  destruct (middle_stages file conf input_path output_path w)
    as (w1 & -> & _ & _ & _ & Hfs1).
  destruct (process_frames_prefix model_predict write_raises conf w1) as
    (n & anns & _ & _ & Hfs & _).
  assert (q ∈ fs w1 ↔ q ∈ fs w) as Hw1.
  { rewrite Hfs1. destruct (writer_opens _ _ _);
      rewrite ?elem_of_union, !elem_of_singleton; tauto. }
  destruct (process_frames conf w1) as [[[]|e] w2]; cbn [fst snd] in *.
  - destruct (remove_if_exists_spec input_path (out_release (cap_release w2)))
      as (w' & -> & _ & Hkeep & _). cbn [snd].
    rewrite (Hkeep q Hin). cbn [out_release cap_release fs]. by rewrite Hfs.
  - destruct (remove_if_exists_spec input_path w2) as (w' & -> & _ & Hkeep & _).
    cbn [snd]. rewrite (Hkeep q Hin). by rewrite Hfs.
Qed.

(** X20.  For a temporary name with no dot in it, the output path is the
    name with "_out.mp4" in place of the suffix, a path other than the
    input's; and once the writer has opened, that file is on the disk at
    every exit of the endpoint, after a failure as after a response: the
    endpoint never deletes it. *)
Theorem output_file_is_left_on_disk (file : UploadFile) (conf : pyfloat)
    (tmp_stem ct : string) (w : world) :
  content_type file = Some ct → str_in "video" ct = true →
  "."%char ∉ String.list_ascii_of_string tmp_stem →
  writer_opens (cap_get (as_video file) frames_per_second)
               (cap_get (as_video file) frame_width)
               (cap_get (as_video file) frame_height) = true →
  str_replace ".mp4" "_out.mp4" (tmp_stem +:+ ".mp4") = tmp_stem +:+ "_out.mp4" ∧
  tmp_stem +:+ "_out.mp4" ≠ tmp_stem +:+ ".mp4" ∧
  tmp_stem +:+ "_out.mp4" ∈ fs (predict_video_body file conf tmp_stem w).2 ∧
  (∀ resp, (predict_video_body file conf tmp_stem w).1 = Return resp →
           path resp = tmp_stem +:+ "_out.mp4").
Proof.
  intros Hct Hvideo Hplain Hopens.
  pose proof (str_replace_plain_stem tmp_stem Hplain) as Hpath.
  pose proof (plain_stem_paths_differ tmp_stem) as Hdiff.
  split; [done|]. split; [done|].
  rewrite (predict_video_body_accepted _ _ _ _ _ _ _ _ Hct Hvideo).
  rewrite Hpath.
  set (input_path := tmp_stem +:+ ".mp4") in *.
  set (output_path := tmp_stem +:+ "_out.mp4") in *.
  destruct (middle_stages file conf input_path output_path w)
    as (w1 & -> & _ & _ & _ & Hfs1).
  rewrite Hopens in Hfs1.
  destruct (process_frames_prefix model_predict write_raises conf w1) as
    (n & anns & _ & _ & Hfs & _).
  assert (output_path ∈ fs w1) as Hw1.
  { rewrite Hfs1, elem_of_union, elem_of_singleton. by left. }
  destruct (process_frames conf w1) as [[[]|e] w2]; cbn [fst snd] in *.
  - destruct (remove_if_exists_spec input_path (out_release (cap_release w2)))
      as (w' & -> & _ & Hkeep & _). cbn [snd].
    rewrite (Hkeep output_path Hdiff). cbn [out_release cap_release fs].
    rewrite Hfs. split; [done|]. by intros resp [= <-].
  - destruct (remove_if_exists_spec input_path w2) as (w' & -> & _ & Hkeep & _).
    cbn [snd]. rewrite (Hkeep output_path Hdiff), Hfs. split; [done|]. done.
Qed.

End MoreVideoFacts.


Section ConfGate.
Context {Picture Array : Type}.
Variable model_predict : Picture → pyfloat → result (@Results Array).
Variable jpeg_base64 : Array → result string.

(** X15.  For a caller with a good token, the image endpoint runs its body
    on the [conf] sent exactly when it is a number from 0 to 1, both ends
    included, and on 0.25 when none is sent; any other number, an infinity
    or a NaN gets the 422 and the body does not run. *)
Theorem image_conf_gate (credentials : token) (now : Z) (user : pyval)
    (file : @UploadFile Picture) :
  verify_token credentials now = Return user →
  (∀ q, (0 <= q)%Q ∧ (q <= 1)%Q →
        predict_image model_predict jpeg_base64 credentials now file (Some (Finite q)) =
        predict_image_body model_predict jpeg_base64 file (Finite q)) ∧
  (∀ q, ¬ ((0 <= q)%Q ∧ (q <= 1)%Q) →
        predict_image model_predict jpeg_base64 credentials now file (Some (Finite q)) =
        Raise (HTTPException 422 "Unprocessable Entity")) ∧
  (∀ v, v = NaN ∨ v = PosInf ∨ v = NegInf →
        predict_image model_predict jpeg_base64 credentials now file (Some v) =
        Raise (HTTPException 422 "Unprocessable Entity")) ∧
  predict_image model_predict jpeg_base64 credentials now file None =
  predict_image_body model_predict jpeg_base64 file (Finite 0.25).
Proof.
  intros Htok. split; [|split; [|split]].
  - intros q [Hge Hle]. unfold predict_image. rewrite Htok.
    cbn [mbind result_bind]. unfold query_param, conf_of_predict_image.
    cbn [default from_option id q_ge q_le q_default float_ge float_le].
    by rewrite (proj2 (Qle_bool_iff 0 q) Hge), (proj2 (Qle_bool_iff q 1) Hle).
  - intros q Hout. apply (image_conf_validated _ _ _ _ user); [done|].
    cbn [float_ge float_le]. apply andb_false_iff.
    destruct (Qle_bool 0 q) eqn:Hge; [|by left]. right.
    destruct (Qle_bool q 1) eqn:Hle; [|done].
    destruct Hout. by rewrite <-!Qle_bool_iff.
  - intros v Hv. apply (image_conf_validated _ _ _ _ user); [done|].
    by destruct Hv as [Hv|[Hv|Hv]]; rewrite Hv.
  - unfold predict_image. by rewrite Htok.
Qed.

End ConfGate.

Lemma image_conf_gate_witness :
  predict_image Sample.model_predict Sample.jpeg_base64 Sample.admin_token 0
    (Sample.photo 3) (Some (Finite 1.5)) =
  Raise (HTTPException 422 "Unprocessable Entity").
Proof.
  destruct (image_conf_gate Sample.model_predict Sample.jpeg_base64 Sample.admin_token 0
              (PStr "admin") (Sample.photo 3)) as (_ & Hreject & _).
  - vm_compute. reflexivity.
  - apply Hreject. intros [_ Hle]. vm_compute in Hle. by apply Hle.
Defined.

Lemma breakdown_counts_labels_witness :
  ∃ r, predict_image_body Sample.model_predict Sample.jpeg_base64
         (Sample.photo 2) (Finite 0.25) = Return r ∧
       breakdown r !! "car" = Some 2 ∧ breakdown r !! "bus" = None.
Proof.
  destruct (breakdown_counts_labels Sample.model_predict Sample.jpeg_base64
              (Sample.photo 2) (Finite 0.25) 2
              (mk_Results {[ 0%Z := "car"; 1%Z := "bus" ]} (replicate 2 0%Z) 2)
              "/9j/4AAQ" ["car"; "car"]) as (r & Hr & _ & Hcount).
  - reflexivity.
  - reflexivity.
  - reflexivity.
  - repeat constructor.
  - exists r. split; [exact Hr|]. split; [apply (Hcount "car")|apply (Hcount "bus")].
Defined.

Lemma image_failures_are_500_witness :
  ∃ cause, HTTPException 500 "cannot identify image file" =
           HTTPException 500 (str_exn cause).
Proof.
  destruct (image_failures_are_500 Sample.model_predict Sample.jpeg_base64
              (Sample.clip 1) (Finite 0.25)
              (HTTPException 500 "cannot identify image file"))
    as (cause & Hcause & _).
  - reflexivity.
  - by exists cause.
Defined.

Lemma refused_requests_touch_nothing_witness :
  predict_video Sample.model_predict Sample.write_raises Sample.writer_opens
    MoreSamples.forged_token 0 (Sample.clip 2) (Some (Finite 0.5))
    "/tmp/tmpk3v9x2ab" Sample.idle =
  (Raise (HTTPException 401 "Invalid token"), Sample.idle).
Proof.
  apply (refused_requests_touch_nothing Sample.model_predict Sample.write_raises
           Sample.writer_opens Sample.jpeg_base64 MoreSamples.forged_token 0
           (Sample.clip 2) (Some (Finite 0.5)) "/tmp/tmpk3v9x2ab" Sample.idle).
  vm_compute. reflexivity.
Defined.

Lemma undecodable_upload_names_no_file_witness :
  send_FileResponse
    (mk_FileResponse (str_replace ".mp4" "_out.mp4" ("/tmp/tmpk3v9x2ab" +:+ ".mp4"))
       "video/mp4" "traffic_analysis.mp4")
    (predict_video_body Sample.model_down Sample.write_raises MoreSamples.writer_shut
       MoreSamples.garbled (Finite 0.25) "/tmp/tmpk3v9x2ab" Sample.idle).2 =
  Raise (PyException
           ("File at path " +:+
            str_replace ".mp4" "_out.mp4" ("/tmp/tmpk3v9x2ab" +:+ ".mp4") +:+
            " does not exist.")).
Proof.
  apply (undecodable_upload_names_no_file Sample.model_down Sample.write_raises
           MoreSamples.writer_shut MoreSamples.garbled (Finite 0.25)
           "/tmp/tmpk3v9x2ab" "video/mp4" Sample.idle).
  - reflexivity.
  - reflexivity.
  - reflexivity.
  - reflexivity.
  - cbn [Sample.idle fs]. apply not_elem_of_empty.
Defined.

Lemma short_video_written_whole_witness :
  Forall2 (annotates Sample.model_predict (Finite 0.25)) (seq 0 3)
    (out_frames (predict_video_body Sample.model_predict Sample.write_raises
                   Sample.writer_opens (Sample.clip 3) (Finite 0.25)
                   "/tmp/tmpk3v9x2ab" Sample.idle).2).
Proof.
  apply (short_video_written_whole Sample.model_predict Sample.write_raises
           Sample.writer_opens (Sample.clip 3) (Finite 0.25)
           "/tmp/tmpk3v9x2ab" "video/mp4" (mk_Video 640 480 30 (seq 0 3)) Sample.idle).
  - reflexivity.
  - reflexivity.
  - reflexivity.
  - cbn [video_frames]. rewrite length_seq. lia.
  - apply Forall_forall. intros frame _. eexists. split; reflexivity.
Defined.

Lemma failure_keeps_frames_before_witness :
  (predict_video_body MoreSamples.model_flaky Sample.write_raises Sample.writer_opens
     (Sample.clip 5) (Finite 0.25) "/tmp/tmpk3v9x2ab" Sample.idle).1 =
  Raise (HTTPException 500 "CUDA out of memory").
Proof.
  apply (failure_keeps_frames_before MoreSamples.model_flaky Sample.write_raises
           Sample.writer_opens (Sample.clip 5) (Finite 0.25)
           "/tmp/tmpk3v9x2ab" "video/mp4" (mk_Video 640 480 30 (seq 0 5)) Sample.idle
           [0; 1] 2 [3; 4] (PyException "CUDA out of memory")).
  - reflexivity.
  - reflexivity.
  - reflexivity.
  - reflexivity.
  - cbn [length]. lia.
  - repeat constructor; eexists; split; reflexivity.
  - left. reflexivity.
Defined.

Lemma other_files_untouched_witness :
  "/etc/passwd" ∈
    fs (predict_video_body Sample.model_predict Sample.write_raises Sample.writer_opens
          (Sample.clip 2) (Finite 0.25) "/tmp/tmpk3v9x2ab"
          (mk_world {[ "/etc/passwd" ]} false [] false [])).2.
Proof.
  apply (other_files_untouched Sample.model_predict Sample.write_raises
           Sample.writer_opens (Sample.clip 2) (Finite 0.25) "/tmp/tmpk3v9x2ab"
           (mk_world {[ "/etc/passwd" ]} false [] false []) "/etc/passwd").
  - vm_compute. discriminate.
  - vm_compute. discriminate.
  - cbn [fs]. by apply elem_of_singleton.
Defined.

Lemma output_file_is_left_on_disk_witness :
  "/tmp/tmpk3v9x2ab" +:+ "_out.mp4" ∈
    fs (predict_video_body Sample.model_down Sample.write_raises Sample.writer_opens
          (Sample.clip 1) (Finite 0.25) "/tmp/tmpk3v9x2ab" Sample.idle).2.
Proof.
  apply (output_file_is_left_on_disk Sample.model_down Sample.write_raises
           Sample.writer_opens (Sample.clip 1) (Finite 0.25)
           "/tmp/tmpk3v9x2ab" "video/mp4" Sample.idle).
  - reflexivity.
  - reflexivity.
  - intros Hdot. apply list_elem_of_In in Hdot. cbn in Hdot.
    repeat (destruct Hdot as [Hdot|Hdot]; [discriminate Hdot|]). exact Hdot.
  - reflexivity.
Defined.
